(** * distDocker: the Tango VMMS back end that runs jobs in docker
    containers on remote hosts (src/vmms/distDocker.py).

    The development is a shallow embedding of the module: the two
    module-level command runners [timeout] and [timeoutWithReturnStatus]
    over an explicit model of a child process, and the methods of class
    [DistDocker] in a state-and-exception monad over a world that holds
    the object's fields, the machines it mutates, and the record of every
    external command it issues. [waitVM], which also pings and sleeps,
    runs over that world extended with the ping oracle. [runJob] is not
    modelled: its text does not parse (an assignment ends on the [%]
    operator and an argument list is left unclosed). *)

From Stdlib Require Import ZArith QArith Lia.
From Stdlib Require Import Ascii String.
From Stdlib Require PrimFloat.
From stdpp Require Import base option list strings gmap.
Import (notations) PrimFloat.

Local Open Scope Z_scope.

(** ** Python values and exceptions *)

(** The result of [Popen.poll()], and of the functions returning it:
    [None] while the child runs, its return code afterwards. *)
Inductive pyval : Type :=
  | PyNone
  | PyInt (z : Z).

(** The exceptions the module can raise on the paths modelled here. *)
Inductive exn : Type :=
  | NameError (name : string)
  | UnboundLocalError (name : string)
  | IndexError
  | CalledProcessError (code : Z).

Inductive result (A : Type) : Type :=
  | Ok (a : A)
  | Raise (e : exn).
Arguments Ok {A} a.
Arguments Raise {A} e.

Definition is_ok {A} (r : result A) : bool :=
  match r with Ok _ => true | Raise _ => false end.

(** ** Strings *)

Definition dash : ascii := "-"%char.
Definition newline : ascii := "010"%char.

(** [c in s] for a one-character [c]. *)
Fixpoint contains (c : ascii) (s : string) : bool :=
  match s with
  | EmptyString => false
  | String a s' => if Ascii.eqb a c then true else contains c s'
  end.

(** [s.split(sep)] for a one-character separator: every occurrence of
    [sep] cuts, so the result has one more piece than [s] has separators. *)
Fixpoint split (sep : ascii) (s : string) : list string :=
  match s with
  | EmptyString => [EmptyString]
  | String a s' =>
      if Ascii.eqb a sep then EmptyString :: split sep s'
      else match split sep s' with
           | [] => [String a EmptyString]
           | piece :: rest => String a piece :: rest
           end
  end.

(** [s.startswith(p)]. *)
Fixpoint startswith (p s : string) : bool :=
  match p, s with
  | EmptyString, _ => true
  | String a p', String b s' => if Ascii.eqb a b then startswith p' s' else false
  | String _ _, EmptyString => false
  end.

(** The characters Python's [re] reads as operators; every other character
    of a pattern stands for itself. *)
Definition re_special (c : ascii) : bool :=
  existsb (Ascii.eqb c)
    ["."; "^"; "$"; "*"; "+"; "?"; "{"; "}"; "["; "]"; "\"; "|"; "("; ")"]%char.

Fixpoint re_literal (pat : string) : bool :=
  match pat with
  | EmptyString => true
  | String a p' => negb (re_special a) && re_literal p'
  end.

(** [re.match(pat, s)] as a truth value. The module only ever matches the
    pattern "<PREFIX>-"; the model reads the pattern as literal text, which
    is what [re] does on the patterns that satisfy [re_literal], where
    matching at the start of [s] is [startswith]. Statements that depend on
    the match carry [re_literal] of the prefix as a hypothesis. *)
Definition re_match (pat s : string) : bool := startswith pat s.

(** ** Configuration and collaborators that are not in the module *)

(** Modelled from the spec: [config.Config] is imported, not defined, by
    distDocker.py; these are the fields the module reads (spec section 6,
    Configuration surface). The poll interval is the number the command
    runners add to their float [t], a binary64 value; the deadlines and
    the time budget, which the methods only hand on or compare with clock
    differences, are rationals. *)
Record Config : Type := {
  PREFIX : string;
  DOCKER_VOLUME_PATH : string;
  TIMER_POLL_INTERVAL : PrimFloat.float;
  COPYIN_TIMEOUT : Q;
  COPYOUT_TIMEOUT : Q;
  DOCKER_RM_TIMEOUT : Q;
  DESTROY_SECS : Q
}.

(** Modelled from the spec: [tangoObjects.TangoMachine] is imported, not
    defined, by distDocker.py; these are the attributes the module reads
    and writes (spec section 3, JobMachine). *)
Record TangoMachine : Type := {
  vmms : string;
  name : string;
  domain_name : string;
  id : string;
  image : string
}.

Definition set_domain_name (vm : TangoMachine) (host : string) : TangoMachine :=
  {| vmms := vmms vm; name := name vm; domain_name := host;
     id := id vm; image := image vm |}.

(** An input file: [localFile] is spliced into the scp argument list, so it
    is a list of paths; [destFile] is relative to the volume. *)
Record InputFile : Type := {
  localFile : list string;
  destFile : string
}.

(** ** The child process behind [subprocess.Popen] *)

(** A launched command as the module can observe it: [p.poll()] answers
    [None] until the child has exited and its return code from then on.
    [exits_at = Some e] says that the [e]-th call of [poll] (counting from
    0) is the first to find the child gone; [None] says it never exits by
    itself. The runners are modelled from a launch that succeeded and over
    sleeps that return: a [Popen] that cannot start the command raises
    [OSError], and [time.sleep] raises on an interval that is negative or
    not a finite number; the statements about runs that sleep assume a
    finite interval that is not negative. *)
Record Process : Type := {
  pid : nat;
  exits_at : option nat;
  returncode : Z
}.

Definition poll (p : Process) (k : nat) : pyval :=
  match exits_at p with
  | Some e => if (e <=? k)%nat then PyInt (returncode p) else PyNone
  | None => PyNone
  end.

(** What a runner does to the outside, in program order. *)
Inductive Event : Type :=
  | Launch (command : list string)
  | Sleep (secs : PrimFloat.float)
  | Kill9 (target : nat).

(** [x < y] on durations, as a boolean. *)
Definition Qltb (x y : Q) : bool := negb (Qle_bool y x).

Section BoundedCommandRunner.

Variable cfg : Config.

(** [popen i command] is the child started by the [i]-th [Popen] call of
    a run. *)
Variable popen : nat -> list string -> Process.

Local Abbreviation dt := (TIMER_POLL_INTERVAL cfg).

(** The [while t < time_out and p.poll() is None] loop of [timeout]:
    [t] is the local of that name, a binary64 float that starts at 0.0 and
    grows by the poll interval with each sleep, and [k] the number of
    polls made. Returns the number of polls made when the loop is left. *)
Fixpoint timeout_wait (fuel : nat) (p : Process) (time_out t : PrimFloat.float)
    (k : nat) (ev : list Event) : option (nat * list Event) :=
  match fuel with
  | O => None
  | S fuel' =>
      if PrimFloat.ltb t time_out then
        match poll p k with
        | PyNone =>
            timeout_wait fuel' p time_out (t + dt)%float (S k) (ev ++ [Sleep dt])
        | PyInt _ => Some (S k, ev)
        end
      else Some (k, ev)
  end.

(** [timeout(command, time_out)]; [time_out] is the deadline as the
    number the test [t < time_out] compares the float [t] with. *)
Definition timeout (fuel : nat) (command : list string) (time_out : PrimFloat.float)
    : option (pyval * list Event) :=
  let p := popen 0 command in
  match timeout_wait fuel p time_out 0%float 0 [Launch command] with
  | None => None
  | Some (k, ev) =>
      match poll p k with
      | PyNone => Some (PyInt (-1), ev ++ [Kill9 (pid p)])
      | PyInt _ => Some (poll p (S k), ev)
      end
  end.

(** The loop of [timeoutWithReturnStatus]. [ret] is the local of that
    name: [None] while it is still unbound. [i] counts the launches made
    and [k] the polls of the current child [p]; [t] is the float of that
    name. *)
Fixpoint timeoutWithReturnStatus_loop (fuel : nat) (command : list string)
    (time_out : PrimFloat.float) (returnValue : Z) (i : nat) (p : Process) (k : nat)
    (t : PrimFloat.float) (ret : option pyval) (ev : list Event)
    : option (result pyval * list Event) :=
  match fuel with
  | O => None
  | S fuel' =>
      if PrimFloat.ltb t time_out then
        match poll p k with
        | PyNone =>
            timeoutWithReturnStatus_loop fuel' command time_out returnValue
              i p (S k) (t + dt)%float (Some PyNone) (ev ++ [Sleep dt])
        | PyInt r =>
            if r =? returnValue then Some (Ok (PyInt r), ev)
            else
              timeoutWithReturnStatus_loop fuel' command time_out returnValue
                (S i) (popen (S i) command) 0 t (Some (PyInt r))
                (ev ++ [Launch command])
        end
      else
        match ret with
        | Some v => Some (Ok v, ev)
        | None => Some (Raise (UnboundLocalError "ret"), ev)
        end
  end.

(** [timeoutWithReturnStatus(command, time_out, returnValue)]. *)
Definition timeoutWithReturnStatus (fuel : nat) (command : list string)
    (time_out : PrimFloat.float) (returnValue : Z)
    : option (result pyval * list Event) :=
  timeoutWithReturnStatus_loop fuel command time_out returnValue
    0 (popen 0 command) 0 0%float None [Launch command].

(** Whether the child is seen gone by poll number [n]. *)
Definition exited_by (p : Process) (n : nat) : bool :=
  match exits_at p with
  | Some e => (e <=? n)%nat
  | None => false
  end.

(** The number of sleeps [timeout] makes on [p]. *)
Definition sleeps_made (p : Process) (n : nat) : nat :=
  match exits_at p with
  | Some e => Nat.min e n
  | None => n
  end.

End BoundedCommandRunner.

(** The value of the runners' [t] after [k] sleeps: [t = 0.0], then
    [t += interval] [k] times, in binary64. *)
Fixpoint slept_time (interval : PrimFloat.float) (k : nat) : PrimFloat.float :=
  match k with
  | O => 0%float
  | S k' => (slept_time interval k' + interval)%float
  end.

(** The loop test [t < time_out] holds before each of the first [n]
    polls. *)
Definition under_deadline (interval time_out : PrimFloat.float) (n : nat) : bool :=
  forallb (fun k => PrimFloat.ltb (slept_time interval k) time_out) (seq 0 n).

(** The loop test has failed once [n] sleeps have been made: [t] has
    reached the deadline. *)
Definition deadline_reached_at (interval time_out : PrimFloat.float) (n : nat) : bool :=
  negb (PrimFloat.ltb (slept_time interval n) time_out).

(** An interval [time.sleep] accepts: a finite number that is not
    negative. *)
Definition valid_interval (interval : PrimFloat.float) : bool :=
  PrimFloat.leb 0 interval && PrimFloat.ltb interval PrimFloat.infinity.

(** ** The world of a [DistDocker] object *)

(** The fields [__init__] sets, [hostLock] apart: the state of the lock
    is kept beside the world, in [Locked] below. *)
Record DistDocker : Type := {
  hosts : list string;
  hostIdx : nat;
  hostUser : string
}.

Inductive Level : Type := DEBUG | INFO | ERROR.

(** A reference to a [TangoMachine] object. *)
Definition loc : Type := nat.

(** Everything a method can read or change. The answers of the outside
    are oracles indexed by the number of requests made so far: [outcome i]
    is what the [i]-th call of [timeout] returns, [listing i] what the
    [i]-th [subprocess.check_output] returns or raises, [clock i] the
    [i]-th reading of [time.time()]. [issued], [listed] and [logged] record
    the requests, oldest first. *)
Record World : Type := {
  self : DistDocker;
  heap : gmap loc TangoMachine;
  issued : list (list string * Q);
  outcome : nat -> Z;
  listed : list (list string);
  listing : nat -> result string;
  clock_reads : nat;
  clock : nat -> Q;
  logged : list (Level * string)
}.

Definition with_self (w : World) (d : DistDocker) : World :=
  {| self := d; heap := heap w; issued := issued w; outcome := outcome w;
     listed := listed w; listing := listing w; clock_reads := clock_reads w;
     clock := clock w; logged := logged w |}.

Definition with_heap (w : World) (h : gmap loc TangoMachine) : World :=
  {| self := self w; heap := h; issued := issued w; outcome := outcome w;
     listed := listed w; listing := listing w; clock_reads := clock_reads w;
     clock := clock w; logged := logged w |}.

Definition with_issued (w : World) (l : list (list string * Q)) : World :=
  {| self := self w; heap := heap w; issued := l; outcome := outcome w;
     listed := listed w; listing := listing w; clock_reads := clock_reads w;
     clock := clock w; logged := logged w |}.

Definition with_listed (w : World) (l : list (list string)) : World :=
  {| self := self w; heap := heap w; issued := issued w; outcome := outcome w;
     listed := l; listing := listing w; clock_reads := clock_reads w;
     clock := clock w; logged := logged w |}.

Definition with_clock_reads (w : World) (n : nat) : World :=
  {| self := self w; heap := heap w; issued := issued w; outcome := outcome w;
     listed := listed w; listing := listing w; clock_reads := n;
     clock := clock w; logged := logged w |}.

Definition with_logged (w : World) (l : list (Level * string)) : World :=
  {| self := self w; heap := heap w; issued := issued w; outcome := outcome w;
     listed := listed w; listing := listing w; clock_reads := clock_reads w;
     clock := clock w; logged := l |}.

(** ** State and exceptions *)

Definition M (A : Type) : Type := World -> result A * World.

Definition ret {A} (a : A) : M A := fun w => (Ok a, w).

Definition raise {A} (e : exn) : M A := fun w => (Raise e, w).

Definition bind {A B} (m : M A) (f : A -> M B) : M B :=
  fun w =>
    match m w with
    | (Ok a, w') => f a w'
    | (Raise e, w') => (Raise e, w')
    end.

Declare Scope py_scope.
Delimit Scope py_scope with py.
Notation "x <- m ;; k" := (bind m (fun x => k))
  (at level 100, m at next level, right associativity) : py_scope.
Notation "m ;;; k" := (bind m (fun _ => k))
  (at level 100, right associativity) : py_scope.
Local Open Scope py_scope.

(** Reading a name that is bound neither in the function nor at module
    level nor as a builtin. *)
Definition load_name {A} (x : string) : M A := raise (NameError x).

(** [l[i]] for a non-negative [i]. *)
Definition index {A} (l : list A) (i : nat) : M A :=
  match l !! i with
  | Some a => ret a
  | None => raise IndexError
  end.

(** A call [timeout(command, time_out)] made by a method: recorded, and
    answered by the oracle. *)
Definition call_timeout (command : list string) (time_out : Q) : M Z :=
  fun w => (Ok (outcome w (length (issued w))),
            with_issued w (issued w ++ [(command, time_out)])).

(** [subprocess.check_output(command)]. *)
Definition check_output (command : list string) : M string :=
  fun w => (listing w (length (listed w)),
            with_listed w (listed w ++ [command])).

(** [time.time()]. *)
Definition time_time : M Q :=
  fun w => (Ok (clock w (clock_reads w)),
            with_clock_reads w (S (clock_reads w))).

(** [self.log.debug/info/error(msg)]; the record keeps the level and the
    format string. *)
Definition log (lv : Level) (msg : string) : M unit :=
  fun w => (Ok tt, with_logged w (logged w ++ [(lv, msg)])).

Definition get_self : M DistDocker := fun w => (Ok (self w), w).

Definition set_hostIdx (i : nat) : M unit :=
  fun w => (Ok tt,
            with_self w {| hosts := hosts (self w); hostIdx := i;
                           hostUser := hostUser (self w) |}).

(** Attribute access on a machine object. A reference always designates
    an object; an unallocated location is given [NameError] only so that
    the functions are total. *)
Definition getattr {A} (f : TangoMachine -> A) (vm : loc) : M A :=
  fun w =>
    match heap w !! vm with
    | Some m => (Ok (f m), w)
    | None => (Raise (NameError "vm"), w)
    end.

Definition setattr_domain_name (vm : loc) (host : string) : M unit :=
  fun w =>
    match heap w !! vm with
    | Some m => (Ok tt, with_heap w (<[vm := set_domain_name m host]> (heap w)))
    | None => (Raise (NameError "vm"), w)
    end.

(** ** The methods of [DistDocker] *)

Definition _SSH_FLAGS : list string :=
  ["-q"; "-i"; "/Users/Mihir/Documents/prog/Autolab/mp_tango.pem";
   "-o"; "StrictHostKeyChecking=no";
   "-o"; "GSSAPIAuthentication=no"].

(** ["%s@%s" % (user, host)]. *)
Definition user_at (user host : string) : string := user +:+ "@" +:+ host.

Section Methods.

Variable cfg : Config.

(** [os.getcwd()]. *)
Variable cwd : string.

(** [getHost], from a free [hostLock]: the host under the cursor; the
    cursor moves on by one and wraps to 0 at the end of the list. These are
    the lines between [hostLock.acquire()] and [hostLock.release()];
    [getHost_locked] below adds the lock. *)
Definition getHost : M string :=
  d <- get_self ;;
  host <- index (hosts d) (hostIdx d) ;;
  set_hostIdx (hostIdx d + 1) ;;;
  d' <- get_self ;;
  (if (length (hosts d') <=? hostIdx d')%nat then set_hostIdx 0 else ret tt) ;;;
  ret host.

(** [instanceName]: ["%s-%s-%s" % (PREFIX, id, name)]. *)
Definition instanceName (id name : string) : string :=
  PREFIX cfg +:+ "-" +:+ id +:+ "-" +:+ name.

Definition getVolumePath (instanceName : string) : string :=
  let volumePath := DOCKER_VOLUME_PATH cfg in
  let volumePath :=
    if contains "*"%char volumePath then cwd +:+ "/" +:+ "volumes/"
    else volumePath in
  volumePath +:+ instanceName +:+ "/".

Definition domainName (vm : TangoMachine) : string := domain_name vm.

(** [initializeVM]: the machine is passed by reference and updated in
    place. *)
Definition initializeVM (vm : loc) : M loc :=
  host <- getHost ;;
  setattr_domain_name vm host ;;;
  _ <- getattr name vm ;;
  log INFO "Assign host %s to VM %s." ;;;
  ret vm.

(** The [for file in inputFiles] loop of [copyIn], with the [return 0]
    that follows it. On a failed copy the arguments of [log.error] are
    evaluated first, and [domain_name] is not a name of that scope (the
    local is [domainName]). *)
Fixpoint copyIn_files (domainName volumePath : string)
    (inputFiles : list InputFile) : M Z :=
  match inputFiles with
  | [] => ret 0
  | file :: rest =>
      d <- get_self ;;
      r <- call_timeout
             (["scp"] ++ _SSH_FLAGS ++ localFile file ++
              [user_at (hostUser d) domainName +:+ ":" +:+ volumePath
                 +:+ "/" +:+ destFile file])
             (COPYIN_TIMEOUT cfg) ;;
      if r =? 0 then
        log DEBUG "Copied in file %s to %s" ;;;
        copyIn_files domainName volumePath rest
      else
        domain_name <- load_name (A := string) "domain_name" ;;
        log ERROR "Error: failed to copy file %s to VM %s with status %s" ;;;
        ret r
  end.

Definition copyIn (vm : TangoMachine) (inputFiles : list InputFile) : M Z :=
  let domainName := domainName vm in
  let instanceName := instanceName (id vm) (image vm) in
  let volumePath := getVolumePath instanceName in
  d <- get_self ;;
  r <- call_timeout
         (["ssh"] ++ _SSH_FLAGS ++
          [user_at (hostUser d) domainName;
           "(rm -rf " +:+ volumePath +:+ "; mkdir " +:+ volumePath +:+ ")"])
         (COPYIN_TIMEOUT cfg) ;;
  if r =? 0 then
    log DEBUG "Volume directory created on VM." ;;;
    copyIn_files domainName volumePath inputFiles
  else ret r.

(** [destroyVM]. The source writes the first call without the comma
    between the command and [config.Config.DOCKER_RM_TIMEOUT]; it is read
    as the two-argument call those lines spell out. The second call has
    no deadline argument and gets the default [time_out=1]; its path is
    [getVolumePath('')], and its shell text has no closing parenthesis. *)
Definition destroyVM (vm : TangoMachine) : M unit :=
  let domainName := domainName vm in
  let instanceName := instanceName (id vm) (image vm) in
  let volumePath := getVolumePath "" in
  let args := "(docker rm -f " +:+ instanceName +:+ ")" in
  d <- get_self ;;
  call_timeout
    (["ssh"] ++ _SSH_FLAGS ++ [user_at (hostUser d) domainName; args])
    (DOCKER_RM_TIMEOUT cfg) ;;;
  call_timeout
    (["ssh"] ++ _SSH_FLAGS ++
     [user_at (hostUser d) domainName; "(rm -rf " +:+ volumePath])
    1%Q ;;;
  log DEBUG "Deleted volume %s" ;;;
  ret tt.

(** [copyOut]. The scp argument list reads [domain_name], which is not a
    name of that scope (the local is [domainName]); the list is built
    before [timeout] is called. *)
Definition copyOut (vm : TangoMachine) (destFile : string) : M Z :=
  let domainName := domainName vm in
  let instanceName := instanceName (id vm) (image vm) in
  let volumePath := getVolumePath instanceName in
  d <- get_self ;;
  domain_name <- load_name (A := string) "domain_name" ;;
  _ <- call_timeout
         (["scp"] ++ _SSH_FLAGS ++
          [user_at (hostUser d) domain_name +:+ ":" +:+ volumePath
             +:+ "feedback";
           destFile])
         (COPYOUT_TIMEOUT cfg) ;;
  log DEBUG "Copied feedback file to %s" ;;;
  destroyVM vm ;;;
  ret 0.

(** The body of the [for volume in volumes] loop of [getVMs]: the record
    built for a directory entry that matches the prefix, [None] for an
    entry that does not. *)
Definition parse_volume (host volume : string) : M (option TangoMachine) :=
  if re_match (PREFIX cfg +:+ "-") volume then
    let volume_l := split dash volume in
    id_ <- index volume_l 1 ;;
    image_ <- index volume_l 2 ;;
    ret (Some {| vmms := "distDocker"; name := volume; domain_name := host;
                 id := id_; image := image_ |})
  else ret None.

Fixpoint getVMs_volumes (host : string) (volumes : list string)
    (machines : list TangoMachine) : M (list TangoMachine) :=
  match volumes with
  | [] => ret machines
  | volume :: rest =>
      m <- parse_volume host volume ;;
      getVMs_volumes host rest
        (match m with Some machine => machines ++ [machine] | None => machines end)
  end.

Fixpoint getVMs_hosts (user volumePath : string) (hs : list string)
    (machines : list TangoMachine) : M (list TangoMachine) :=
  match hs with
  | [] => ret machines
  | host :: rest =>
      out <- check_output
               (["ssh"] ++ _SSH_FLAGS ++
                [user_at user host; "(ls " +:+ volumePath +:+ ")"]) ;;
      machines' <- getVMs_volumes host (split newline out) machines ;;
      getVMs_hosts user volumePath rest machines'
  end.

Definition getVMs : M (list TangoMachine) :=
  let volumePath := getVolumePath "" in
  d <- get_self ;;
  getVMs_hosts (hostUser d) volumePath (hosts d) [].

(** [existsVM]. The comprehension [[vm.name for vm in vms]] runs under
    Python 2 (as [getVMs] does, splitting the output of [check_output]
    with a text separator), where its variable is the function's own
    [vm]: afterwards [vm] is the last enumerated machine, if any. The
    returned expression reads [vmname]; the list built is [vmnames]. *)
Definition existsVM (vm : TangoMachine) : M bool :=
  vms <- getVMs ;;
  let vmnames := map name vms in
  let vm := List.last vms vm in
  let name_ := name vm in
  vmname <- load_name (A := list string) "vmname" ;;
  ret (bool_decide (name_ ∈ vmname)).

(** The [while self.existsVM(vm)] loop of [safeDestroyVM]. *)
Fixpoint safeDestroyVM_loop (fuel : nat) (vm : TangoMachine) (start_time : Q)
    (w : World) : option (result unit * World) :=
  match fuel with
  | O => None
  | S fuel' =>
      match existsVM vm w with
      | (Raise e, w1) => Some (Raise e, w1)
      | (Ok false, w1) => Some (Ok tt, w1)
      | (Ok true, w1) =>
          match time_time w1 with
          | (Raise e, w2) => Some (Raise e, w2)
          | (Ok now, w2) =>
              if Qltb (DESTROY_SECS cfg) (now - start_time)%Q then
                Some (log ERROR "Failed to safely destroy container %s" w2)
              else
                match destroyVM vm w2 with
                | (Raise e, w3) => Some (Raise e, w3)
                | (Ok _, w3) => safeDestroyVM_loop fuel' vm start_time w3
                end
          end
      end
  end.

Definition safeDestroyVM (fuel : nat) (vm : TangoMachine) (w : World)
    : option (result unit * World) :=
  match time_time w with
  | (Raise e, w0) => Some (Raise e, w0)
  | (Ok start_time, w0) => safeDestroyVM_loop fuel vm start_time w0
  end.

End Methods.

(** ** [hostLock] *)

(** The world together with [self.hostLock], a [threading.Lock]:
    [hostLock = true] says the lock is held. *)
Record Locked : Type := {
  under : World;
  hostLock : bool
}.

(** What a call made by the only thread that uses the object comes to: it
    returns or raises, or it never returns because it waits for a lock
    that no one is going to release. *)
Inductive Call (A : Type) : Type :=
  | Done (r : result A) (s : Locked)
  | Blocked.

Arguments Done {A} r s.
Arguments Blocked {A}.

(** [getHost] with its lock. [acquire()] waits while the lock is held.
    [release()] is a plain statement after the lines that index the list
    and move the cursor, not a [finally]: it is reached only when those
    lines raise nothing, so an exception leaves the lock held. *)
Definition getHost_locked (s : Locked) : Call string :=
  if hostLock s then Blocked
  else
    match getHost (under s) with
    | (Ok host, w') => Done (Ok host) {| under := w'; hostLock := false |}
    | (Raise e, w') => Done (Raise e) {| under := w'; hostLock := true |}
    end.

(** [initializeVM] over [getHost_locked]. *)
Definition initializeVM_locked (vm : loc) (s : Locked) : Call loc :=
  match getHost_locked s with
  | Blocked => Blocked
  | Done (Raise e) s' => Done (Raise e) s'
  | Done (Ok host) s' =>
      match (setattr_domain_name vm host ;;;
             _ <- getattr name vm ;;
             log INFO "Assign host %s to VM %s." ;;;
             ret vm) (under s') with
      | (r, w') => Done r {| under := w'; hostLock := hostLock s' |}
      end
  end.

(** ** Derived notions used in the statements *)

(** [n] consecutive calls of [getHost], with the hosts in call order. *)
Fixpoint calls (n : nat) : M (list string) :=
  match n with
  | O => ret []
  | S n' => h <- getHost ;; t <- calls n' ;; ret (h :: t)
  end.

(** The object state with the cursor at [i]. *)
Definition at_cursor (d : DistDocker) (i : nat) : DistDocker :=
  {| hosts := hosts d; hostIdx := i; hostUser := hostUser d |}.

(** The cursor after a call made at [i] in a pool of [n] hosts. *)
Definition next_cursor (n i : nat) : nat :=
  if (n <=? i + 1)%nat then 0%nat else (i + 1)%nat.

(** The two kinds of command [copyIn] issues for a machine, as the pairs
    of argument list and deadline handed to [timeout]. *)
Definition reset_command (cfg : Config) (cwd user : string) (vm : TangoMachine)
    : list string * Q :=
  let volumePath := getVolumePath cfg cwd (instanceName cfg (id vm) (image vm)) in
  (["ssh"] ++ _SSH_FLAGS ++
   [user_at user (domain_name vm);
    "(rm -rf " +:+ volumePath +:+ "; mkdir " +:+ volumePath +:+ ")"],
   COPYIN_TIMEOUT cfg).

Definition copy_command (cfg : Config) (cwd user : string) (vm : TangoMachine)
    (file : InputFile) : list string * Q :=
  let volumePath := getVolumePath cfg cwd (instanceName cfg (id vm) (image vm)) in
  (["scp"] ++ _SSH_FLAGS ++ localFile file ++
   [user_at user (domain_name vm) +:+ ":" +:+ volumePath +:+ "/" +:+ destFile file],
   COPYIN_TIMEOUT cfg).

(** ** Sample configurations, machines and worlds *)

Definition cfg_tango : Config :=
  {| PREFIX := "tango"; DOCKER_VOLUME_PATH := "/var/volumes/";
     TIMER_POLL_INTERVAL := 1; COPYIN_TIMEOUT := 30; COPYOUT_TIMEOUT := 30;
     DOCKER_RM_TIMEOUT := 30; DESTROY_SECS := 5 |}.

(** A configuration whose prefix itself contains the separator. *)
Definition cfg_dashed : Config :=
  {| PREFIX := "my-tango"; DOCKER_VOLUME_PATH := "/var/volumes/";
     TIMER_POLL_INTERVAL := 1; COPYIN_TIMEOUT := 30; COPYOUT_TIMEOUT := 30;
     DOCKER_RM_TIMEOUT := 30; DESTROY_SECS := 5 |}.

Definition vm17 : TangoMachine :=
  {| vmms := "distDocker"; name := "tango-17-ubuntu"; domain_name := "hostA";
     id := "17"; image := "ubuntu" |}.

(** The object as [__init__] leaves it, over a given host list (the
    source's list is [['127.0.0.1']]). *)
Definition new_DistDocker (hs : list string) : DistDocker :=
  {| hosts := hs; hostIdx := 0; hostUser := "ubuntu" |}.

(** A world in which nothing has been requested yet. *)
Definition new_world (hs : list string) (h : gmap loc TangoMachine)
    (oc : nat -> Z) (ls : nat -> result string) (ck : nat -> Q) : World :=
  {| self := new_DistDocker hs; heap := h; issued := []; outcome := oc;
     listed := []; listing := ls; clock_reads := 0; clock := ck; logged := [] |}.

(** Every bounded command succeeds. *)
Definition all_succeed : nat -> Z := fun _ => 0.

(** The directory is reset and the first file copied; the copy of the
    second file returns 1. *)
Definition second_copy_fails : nat -> Z :=
  fun i => match i with 2%nat => 1 | _ => 0 end.

(** The remote listing shows the directory of [vm17]. *)
Definition lists_vm17 : nat -> result string :=
  fun _ => Ok ("tango-17-ubuntu" +:+ String newline "").

(** The clock advances by one second per reading. *)
Definition ticking : nat -> Q := fun i => inject_Z (Z.of_nat i).

Definition two_files : list InputFile :=
  [ {| localFile := ["/tmp/job/Makefile"]; destFile := "Makefile" |};
    {| localFile := ["/tmp/job/handin.c"]; destFile := "handin.c" |} ].

(** A command whose first run is found finished, with status 1, at the
    poll after one sleep, and whose later runs do not finish. *)
Definition fails_then_hangs : nat -> list string -> Process :=
  fun i _ =>
    match i with
    | O => {| pid := 4000; exits_at := Some 1%nat; returncode := 1 |}
    | S j => {| pid := 4001 + j; exits_at := None; returncode := 0 |}
    end.

(** A command whose every run is found finished with status 0 at the poll
    after two sleeps. *)
Definition finishes_soon : nat -> list string -> Process :=
  fun i _ => {| pid := 4000 + i; exits_at := Some 2%nat; returncode := 0 |}.

(** A machine before provisioning, stored at reference 7. *)
Definition vm_fresh : TangoMachine :=
  {| vmms := "distDocker"; name := "tango-17-ubuntu"; domain_name := "";
     id := "17"; image := "ubuntu" |}.

Definition world_two_hosts : World :=
  new_world ["hostA"; "hostB"] {[ 7%nat := vm_fresh ]} all_succeed lists_vm17 ticking.

(** A command that is still running after any number of polls. *)
Definition hangs : nat -> list string -> Process :=
  fun i _ => {| pid := 4000 + i; exits_at := None; returncode := 0 |}.

(** ** The constructor *)

(** What [DistDocker()] comes to: the object, or the end of the process
    by [exit(code)] after the messages logged at level ERROR. *)
Inductive Construction : Type :=
  | Built (d : DistDocker)
  | Exited (code : Z) (messages : list (Level * string)).

(** [__init__]: the fields are set, then the volume path is checked; the
    exception raised on an empty path is caught in the same function,
    logged, and answered by [exit(1)]. *)
Definition DistDocker_init (cfg : Config) : Construction :=
  let d := {| hosts := ["127.0.0.1"]; hostIdx := 0; hostUser := "ubuntu" |} in
  if (String.length (DOCKER_VOLUME_PATH cfg) =? 0)%nat
  then Exited 1 [(ERROR, "DOCKER_VOLUME_PATH not defined in config.")]
  else Built d.

(** ** [waitVM] *)

(** [waitVM] does two things no other method does: it runs [ping] through
    [subprocess.call], whose return value it reads, and it sleeps.
    [ping i] is what the [i]-th such call returns; [pinged] and [slept]
    record the shell commands run and the durations slept, oldest first. *)
Record Probe : Type := {
  world : World;
  pinged : list string;
  ping : nat -> Z;
  slept : list PrimFloat.float
}.

Definition with_world (s : Probe) (w : World) : Probe :=
  {| world := w; pinged := pinged s; ping := ping s; slept := slept s |}.

(** A method step that only needs the world. *)
Definition lift {A} (m : M A) (s : Probe) : result A * Probe :=
  match m (world s) with
  | (r, w') => (r, with_world s w')
  end.

(** [subprocess.call(command, shell=True, ...)]. *)
Definition subprocess_call (command : string) (s : Probe) : Z * Probe :=
  (ping s (length (pinged s)),
   {| world := world s; pinged := pinged s ++ [command]; ping := ping s;
      slept := slept s |}).

(** [time.sleep(secs)]. *)
Definition time_sleep (secs : PrimFloat.float) (s : Probe) : Probe :=
  {| world := world s; pinged := pinged s; ping := ping s;
     slept := slept s ++ [secs] |}.

Section WaitVM.

Variable cfg : Config.

(** The [while instance_down] loop. [Ok (Some r)] is a [return r] from
    inside the loop, [Ok None] the loop left because the ping returned 0. *)
Fixpoint waitVM_ping (fuel : nat) (domain_name : string)
    (max_secs start_time : Q) (s : Probe) : option (result (option Z) * Probe) :=
  match fuel with
  | O => None
  | S fuel' =>
      match subprocess_call ("ping -c 1 " +:+ domain_name) s with
      | (instance_down, s1) =>
          if instance_down =? 0 then Some (Ok None, s1)
          else
            match lift time_time (time_sleep (TIMER_POLL_INTERVAL cfg) s1) with
            | (Raise e, s2) => Some (Raise e, s2)
            | (Ok now, s2) =>
                let elapsed_secs := (now - start_time)%Q in
                if Qltb max_secs elapsed_secs then Some (Ok (Some (-1)), s2)
                else waitVM_ping fuel' domain_name max_secs start_time s2
            end
      end
  end.

(** One turn of the [while (True)] loop, up to the sleep that ends it:
    [Some r] is a [return r], [None] is "try again". *)
Definition waitVM_ssh_attempt (domain_name : string) (max_secs start_time : Q)
    : M (option Z) :=
  now <- time_time ;;
  let elapsed_secs := (now - start_time)%Q in
  if Qltb max_secs elapsed_secs then
    log INFO "VM %s: SSH timeout after %d secs" ;;;
    ret (Some (-1))
  else
    d <- get_self ;;
    r <- call_timeout
           (["ssh"] ++ _SSH_FLAGS ++ [user_at (hostUser d) domain_name; "(:)"])
           (max_secs - elapsed_secs)%Q ;;
    log DEBUG "VM %s: ssh returned with %d" ;;;
    if negb (r =? -1) && negb (r =? 255) then ret (Some 0) else ret None.

Fixpoint waitVM_ssh (fuel : nat) (domain_name : string)
    (max_secs start_time : Q) (s : Probe) : option (result Z * Probe) :=
  match fuel with
  | O => None
  | S fuel' =>
      match lift (waitVM_ssh_attempt domain_name max_secs start_time) s with
      | (Raise e, s1) => Some (Raise e, s1)
      | (Ok (Some r), s1) => Some (Ok r, s1)
      | (Ok None, s1) =>
          waitVM_ssh fuel' domain_name max_secs start_time
            (time_sleep (TIMER_POLL_INTERVAL cfg) s1)
      end
  end.

(** [waitVM(vm, max_secs)]. *)
Definition waitVM (fuel : nat) (vm : TangoMachine) (max_secs : Q) (s : Probe)
    : option (result Z * Probe) :=
  let domain_name := domainName vm in
  match lift time_time s with
  | (Raise e, s0) => Some (Raise e, s0)
  | (Ok start_time, s0) =>
      match waitVM_ping fuel domain_name max_secs start_time s0 with
      | None => None
      | Some (Raise e, s1) => Some (Raise e, s1)
      | Some (Ok (Some r), s1) => Some (Ok r, s1)
      | Some (Ok None, s1) =>
          match lift (log DEBUG "VM %s: ping completed") s1 with
          | (Raise e, s2) => Some (Raise e, s2)
          | (Ok _, s2) => waitVM_ssh fuel domain_name max_secs start_time s2
          end
      end
  end.

End WaitVM.

(** ** Further notions used in the statements *)

(** Whether a run of a command runner sent a kill signal. *)
Definition killed (ev : list Event) : bool :=
  existsb (fun e => match e with Kill9 _ => true | _ => false end) ev.

(** The listing command [getVMs] runs on a host. *)
Definition ls_command (cfg : Config) (cwd user host : string) : list string :=
  ["ssh"] ++ _SSH_FLAGS ++
  [user_at user host; "(ls " +:+ getVolumePath cfg cwd "" +:+ ")"].

(** The command [waitVM] uses to try the remote shell. *)
Definition ssh_probe_command (user host : string) : list string :=
  ["ssh"] ++ _SSH_FLAGS ++ [user_at user host; "(:)"].

(** A probe state in which nothing has been pinged or slept yet. *)
Definition new_probe (w : World) (pg : nat -> Z) : Probe :=
  {| world := w; pinged := []; ping := pg; slept := [] |}.

(** What [getVMs] guarantees of a record it builds for a directory entry
    found on [host]: the tag, the host, a name with the prefix, and the id
    and image that are the second and third ['-']-separated fields of the
    name. *)
Definition enumerated_from (cfg : Config) (host : string) (m : TangoMachine) : Prop :=
  vmms m = "distDocker" /\
  domain_name m = host /\
  startswith (PREFIX cfg +:+ "-") (name m) = true /\
  split dash (name m) !! 1%nat = Some (id m) /\
  split dash (name m) !! 2%nat = Some (image m).

(** Two worlds that differ at most in the record of listings. *)
Definition same_but_listed (w w' : World) : Prop :=
  self w' = self w /\ heap w' = heap w /\ issued w' = issued w /\
  outcome w' = outcome w /\ listing w' = listing w /\
  clock_reads w' = clock_reads w /\ clock w' = clock w /\ logged w' = logged w.

(** The time budget of [waitVM] seen from the clock: every reading from
    the [m]-th on, counted from reading number [first], is more than
    [max_secs] after [start_time]. *)
Definition budget_over_from (ck : nat -> Q) (first : nat)
    (start_time max_secs : Q) (m : nat) : Prop :=
  forall j : nat, (m <= j)%nat ->
    Qltb max_secs (ck (first + j)%nat - start_time)%Q = true.


(** A clock that stands still. *)
Definition still_clock : nat -> Q := fun _ => 0%Q.

Definition host_up : nat -> Z := fun _ => 0.

(** A command whose every run is found finished at its first poll, with
    status 1. *)
Definition fails_at_once : nat -> list string -> Process :=
  fun i _ => {| pid := 4000 + i; exits_at := Some 0%nat; returncode := 1 |}.

(** Every bounded command returns 1; every bounded command returns 255. *)
Definition all_fail : nat -> Z := fun _ => 1.
Definition shell_refuses : nat -> Z := fun _ => 255.

(** The remote listing shows the directory of [vm17] and a directory
    "tango-lost". *)
Definition lists_stray : nat -> result string :=
  fun _ => Ok ("tango-17-ubuntu" +:+ String newline ("tango-lost" +:+ String newline "")).

(** A world whose pool is empty. *)
Definition world_no_hosts : World :=
  new_world [] {[ 7%nat := vm_fresh ]} all_succeed lists_vm17 ticking.

(** Python's [0.1]: the binary64 value nearest to one tenth. *)
Definition tenth : PrimFloat.float := 0x1.999999999999ap-4%float.

(** The sample configuration with a poll interval of [0.1]. *)
Definition cfg_tenth : Config :=
  {| PREFIX := "tango"; DOCKER_VOLUME_PATH := "/var/volumes/";
     TIMER_POLL_INTERVAL := tenth; COPYIN_TIMEOUT := 30; COPYOUT_TIMEOUT := 30;
     DOCKER_RM_TIMEOUT := 30; DESTROY_SECS := 5 |}.

(** A command whose every run is first found gone at poll [e], with
    return code [rc]. *)
Definition gone_at (e : nat) (rc : Z) : nat -> list string -> Process :=
  fun i _ => {| pid := 4000 + i; exits_at := Some e; returncode := rc |}.

(** The first ping fails, the later ones succeed. *)
Definition answers_second : nat -> Z :=
  fun i => match i with O => 1 | S _ => 0 end.

(** The first try of the remote shell fails to connect (255), the later
    ones time out (-1). *)
Definition refused_then_timed_out : nat -> Z :=
  fun i => match i with O => 255 | S _ => -1 end.

(** * Properties *)

(** ** HostPool *)

Lemma with_self_id (w : World) : with_self w (at_cursor (self w) (hostIdx (self w))) = w.
Proof. destruct w as [[hs i u] ? ? ? ? ? ? ? ?]. reflexivity. Qed.

Lemma getHost_spec (w : World) (h : string) :
  hosts (self w) !! hostIdx (self w) = Some h ->
  getHost w =
    (Ok h, with_self w (at_cursor (self w)
                          (next_cursor (length (hosts (self w))) (hostIdx (self w))))).
Proof.
  intros Hh. unfold getHost, bind, get_self, index. rewrite Hh. cbn.
  unfold next_cursor, at_cursor.
  destruct (length (hosts (self w)) <=? hostIdx (self w) + 1)%nat; reflexivity.
Qed.

Lemma getHost_empty (w : World) :
  hosts (self w) !! hostIdx (self w) = None ->
  getHost w = (Raise IndexError, w).
Proof.
  intros Hh. unfold getHost, bind, get_self, index. rewrite Hh. reflexivity.
Qed.

Lemma calls_from (k : nat) : forall (w : World) (i : nat),
  hostIdx (self w) = i ->
  (i < length (hosts (self w)))%nat ->
  (i + k <= length (hosts (self w)))%nat ->
  calls k w =
    (Ok (take k (drop i (hosts (self w)))),
     with_self w (at_cursor (self w)
                    (if (i + k =? length (hosts (self w)))%nat then 0%nat
                     else (i + k)%nat))).
Proof.
  induction k as [|k IH]; intros w i Hi Hlt Hle.
  - cbn. rewrite Nat.add_0_r.
    destruct (Nat.eqb_spec i (length (hosts (self w)))) as [E|_]; [lia|].
    subst i. rewrite with_self_id. reflexivity.
  - destruct (lookup_lt_is_Some_2 (hosts (self w)) i Hlt) as [h Hh].
    cbn [calls]. unfold bind at 1.
    rewrite (getHost_spec w h) by (rewrite Hi; exact Hh).
    rewrite Hi. unfold next_cursor.
    rewrite (drop_S _ h i Hh). cbn [take].
    destruct (Nat.leb_spec (length (hosts (self w))) (i + 1)) as [Hend|Hmore].
    + assert (k = 0%nat) by lia. subst k. cbn.
      destruct (Nat.eqb_spec (i + 1) (length (hosts (self w)))) as [_|E]; [|lia].
      reflexivity.
    + unfold bind.
      rewrite (IH _ (i + 1)%nat) by (cbn; lia).
      cbn.
      replace (i + 1 + k)%nat with (i + S k)%nat by lia.
      replace (drop (i + 1) (hosts (self w))) with (drop (S i) (hosts (self w)))
        by (f_equal; lia).
      reflexivity.
Qed.

(** C4. From a pool whose cursor is at 0, as many calls of [getHost] as
    there are hosts return the host list in its order and leave the cursor
    at 0 again, so that the next call returns what the first one did: the
    first host. *)
Theorem getHost_round_robin (w : World) :
  hostIdx (self w) = 0%nat ->
  exists w' : World,
    calls (length (hosts (self w))) w = (Ok (hosts (self w)), w') /\
    self w' = self w /\
    fst (getHost w') = fst (getHost w) /\
    fst (getHost w) =
      match hosts (self w) with
      | [] => Raise IndexError
      | h :: _ => Ok h
      end.
Proof.
  intros H0. destruct w as [[hs i u] hp iss oc lsd lsg cr ck lgd].
  cbn in H0. subst i. cbn [self hosts].
  destruct hs as [|h hs].
  - eexists. cbn. repeat split; reflexivity.
  - set (w := Build_World _ _ _ _ _ _ _ _ _).
    pose proof (calls_from (length (h :: hs)) w 0%nat eq_refl) as Hc.
    cbn [self hosts hostIdx w] in Hc.
    specialize (Hc ltac:(cbn; lia) ltac:(cbn; lia)).
    rewrite Nat.add_0_l, Nat.eqb_refl, drop_0, firstn_all in Hc.
    eexists. split; [exact Hc|].
    rewrite (getHost_spec w h) by reflexivity.
    rewrite (getHost_spec (with_self w _) h) by reflexivity.
    repeat split; reflexivity.
Qed.

(** ** Provisioning *)

(** C10. [initializeVM] changes one thing about the machine it is given:
    its [domain_name] becomes the host the pool returns. The machine's
    [id], [image], [name] and [vmms] are what they were, every other
    machine object is untouched, and the reference returned is the one
    passed in. *)
Theorem initializeVM_frame (w : World) (vm : loc) (m : TangoMachine) (h : string) :
  heap w !! vm = Some m ->
  hosts (self w) !! hostIdx (self w) = Some h ->
  exists w' : World,
    initializeVM vm w = (Ok vm, w') /\
    heap w' = <[vm := set_domain_name m h]> (heap w) /\
    (exists m' : TangoMachine,
        heap w' !! vm = Some m' /\ domain_name m' = h /\
        id m' = id m /\ image m' = image m /\ name m' = name m /\
        vmms m' = vmms m) /\
    (forall l : loc, l <> vm -> heap w' !! l = heap w !! l).
Proof.
  intros Hm Hh. unfold initializeVM, bind.
  rewrite (getHost_spec w h Hh).
  unfold setattr_domain_name, getattr. cbn [heap with_self].
  rewrite Hm. cbn [heap with_heap]. rewrite lookup_insert_eq.
  eexists. split; [reflexivity|]. cbn [heap with_heap with_logged with_self].
  split; [reflexivity|]. split.
  - exists (set_domain_name m h). rewrite lookup_insert_eq.
    repeat split; reflexivity.
  - intros l Hl. rewrite lookup_insert_ne by congruence. reflexivity.
Qed.

(** ** NamingScheme *)

Lemma append_nil_l (s : string) : "" +:+ s = s.
Proof. reflexivity. Qed.

Lemma append_String (a : ascii) (s t : string) :
  String a s +:+ t = String a (s +:+ t).
Proof. reflexivity. Qed.

Lemma split_no_sep (sep : ascii) (s : string) :
  contains sep s = false -> split sep s = [s].
Proof.
  induction s as [|a s IH]; cbn -[Ascii.eqb]; [reflexivity|].
  destruct (Ascii.eqb a sep); [discriminate|].
  intros H. rewrite (IH H). reflexivity.
Qed.

Lemma split_app (sep : ascii) (a b : string) :
  contains sep a = false ->
  split sep (a +:+ String sep b) = a :: split sep b.
Proof.
  induction a as [|c a IH].
  - intros _. rewrite append_nil_l. cbn -[Ascii.eqb].
    rewrite Ascii.eqb_refl. reflexivity.
  - rewrite append_String. cbn -[Ascii.eqb].
    destruct (Ascii.eqb c sep); [discriminate|].
    intros H. rewrite (IH H). reflexivity.
Qed.

Lemma split_instanceName (cfg : Config) (i img : string) :
  contains dash (PREFIX cfg) = false ->
  contains dash i = false ->
  contains dash img = false ->
  split dash (instanceName cfg i img) = [PREFIX cfg; i; img].
Proof.
  intros Hp Hi Himg. unfold instanceName.
  change ("-" +:+ i +:+ "-" +:+ img) with (String dash (i +:+ String dash img)).
  rewrite (split_app dash _ _ Hp), (split_app dash _ _ Hi).
  rewrite (split_no_sep dash _ Himg). reflexivity.
Qed.

(** C5, as amended. When neither the configured prefix nor the id nor the
    image contains ['-'] (the prefix being text that the pattern match
    reads literally), the name built by [instanceName] passes the prefix
    filter of [getVMs], and the record [getVMs] builds from it carries
    exactly that id and that image. *)
Theorem instanceName_parse_roundtrip (cfg : Config) (host i img : string) (w : World) :
  re_literal (PREFIX cfg) = true ->
  contains dash (PREFIX cfg) = false ->
  contains dash i = false ->
  contains dash img = false ->
  parse_volume cfg host (instanceName cfg i img) w =
    (Ok (Some {| vmms := "distDocker"; name := instanceName cfg i img;
                 domain_name := host; id := i; image := img |}), w).
Proof.
  intros _ Hp Hi Himg. unfold parse_volume, re_match.
  replace (startswith (PREFIX cfg +:+ "-") (instanceName cfg i img)) with true.
  2:{ unfold instanceName. generalize (PREFIX cfg). intros p.
      induction p as [|a p IH]; [reflexivity|].
      rewrite !append_String. cbn -[Ascii.eqb].
      rewrite Ascii.eqb_refl. exact IH. }
  rewrite (split_instanceName cfg i img Hp Hi Himg). reflexivity.
Qed.

(** ** BoundedCommandRunner *)

Lemma under_deadline_lt (interval time_out : PrimFloat.float) (n k : nat) :
  under_deadline interval time_out n = true ->
  (k < n)%nat ->
  PrimFloat.ltb (slept_time interval k) time_out = true.
Proof.
  unfold under_deadline. intros Hall Hk.
  apply (proj1 (forallb_forall _ _) Hall k). apply in_seq. lia.
Qed.

Lemma under_deadline_le (interval time_out : PrimFloat.float) (n m : nat) :
  under_deadline interval time_out n = true ->
  (m <= n)%nat ->
  under_deadline interval time_out m = true.
Proof.
  intros Hall Hm. unfold under_deadline. apply forallb_forall. intros k Hk.
  apply in_seq in Hk. apply (under_deadline_lt _ _ n); [exact Hall|lia].
Qed.

Lemma poll_running (p : Process) (k : nat) :
  exited_by p k = false -> poll p k = PyNone.
Proof.
  unfold exited_by, poll. destruct (exits_at p); [|reflexivity].
  intros ->. reflexivity.
Qed.

Lemma poll_exited (p : Process) (k : nat) :
  exited_by p k = true -> poll p k = PyInt (returncode p).
Proof.
  unfold exited_by, poll. destruct (exits_at p); [|discriminate].
  intros ->. reflexivity.
Qed.

Lemma exited_by_mono (p : Process) (j k : nat) :
  (j <= k)%nat -> exited_by p j = true -> exited_by p k = true.
Proof.
  unfold exited_by. destruct (exits_at p) as [e|]; [|discriminate].
  rewrite !Nat.leb_le. lia.
Qed.

Lemma sleeps_made_exited (p : Process) (n k : nat) :
  (k <= n)%nat ->
  (forall j : nat, (j < k)%nat -> exited_by p j = false) ->
  exited_by p k = true ->
  sleeps_made p n = k.
Proof.
  unfold sleeps_made, exited_by. intros Hk Hrun Hex.
  destruct (exits_at p) as [e|]; [|discriminate].
  apply Nat.leb_le in Hex.
  destruct (Nat.eq_dec e k) as [->|Hne]; [lia|].
  specialize (Hrun e ltac:(lia)). apply Nat.leb_gt in Hrun. lia.
Qed.

Lemma sleeps_made_running (p : Process) (n : nat) :
  (forall j : nat, (j < n)%nat -> exited_by p j = false) ->
  sleeps_made p n = n.
Proof.
  unfold sleeps_made, exited_by. intros Hrun.
  destruct (exits_at p) as [e|]; [|reflexivity].
  destruct (Nat.le_gt_cases n e) as [Hne|Hen]; [lia|].
  specialize (Hrun e Hen). apply Nat.leb_gt in Hrun. lia.
Qed.

Section RunnerProperties.

Variable cfg : Config.
Variable popen : nat -> list string -> Process.

Local Abbreviation dt := (TIMER_POLL_INTERVAL cfg).

(** The waiting loop, from any point [k] of a run at which the child has
    not been seen gone yet, when the loop test holds before each of the
    first [n] polls and, at poll [n], either the child is gone or the test
    has failed: the loop stops at the first poll that finds the child
    gone, or at the failed test, whichever comes first, having slept once
    per poll that found the child running. *)
Lemma timeout_wait_spec (p : Process) (time_out : PrimFloat.float) (n fuel : nat) :
  under_deadline dt time_out n = true ->
  exited_by p n || deadline_reached_at dt time_out n = true ->
  forall (k : nat) (t : PrimFloat.float) (ev : list Event),
    t = slept_time dt k ->
    (k <= n)%nat ->
    (forall j : nat, (j < k)%nat -> exited_by p j = false) ->
    (n - k < fuel)%nat ->
    exists k' : nat,
      timeout_wait cfg fuel p time_out t k ev =
        Some (k', ev ++ repeat (Sleep dt) (sleeps_made p n - k)) /\
      exited_by p k' = exited_by p n /\
      (k' <= S n)%nat.
Proof.
  intros Hunder Hstop.
  induction fuel as [|fuel IH]; intros k t ev Ht Hk Hrun Hfuel; [lia|].
  cbn [timeout_wait]. subst t.
  destruct (Nat.lt_ge_cases k n) as [Hlt|Hge].
  - rewrite (under_deadline_lt _ _ n k Hunder Hlt).
    destruct (exited_by p k) eqn:Hex.
    + rewrite (poll_exited p k Hex). exists (S k).
      rewrite (sleeps_made_exited p n k Hk Hrun Hex), Nat.sub_diag.
      cbn [repeat]. rewrite app_nil_r.
      split; [reflexivity|]. split; [|lia].
      rewrite (exited_by_mono p k (S k)) by (lia || exact Hex).
      rewrite (exited_by_mono p k n) by (lia || exact Hex). reflexivity.
    + rewrite (poll_running p k Hex).
      destruct (IH (S k) (slept_time dt k + dt)%float (ev ++ [Sleep dt]))
        as (k' & Hw & He & Hle).
      * reflexivity.
      * lia.
      * intros j Hj. destruct (Nat.eq_dec j k) as [->|Hne]; [exact Hex|].
        apply Hrun. lia.
      * lia.
      * exists k'. split; [|split; assumption].
        rewrite Hw. f_equal. f_equal.
        rewrite <- app_assoc. f_equal.
        assert (Hs : (k < sleeps_made p n)%nat).
        { unfold sleeps_made. unfold exited_by in Hex.
          destruct (exits_at p) as [e|]; [|lia].
          apply Nat.leb_gt in Hex. lia. }
        replace (sleeps_made p n - k)%nat with (S (sleeps_made p n - S k)) by lia.
        reflexivity.
  - assert (k = n) by lia. subst k.
    rewrite (sleeps_made_running p n Hrun), Nat.sub_diag.
    cbn [repeat]. rewrite app_nil_r.
    destruct (PrimFloat.ltb (slept_time dt n) time_out) eqn:Htest.
    + unfold deadline_reached_at in Hstop. rewrite Htest in Hstop.
      cbn [negb] in Hstop. rewrite orb_false_r in Hstop.
      rewrite (poll_exited p n Hstop). exists (S n).
      split; [reflexivity|]. split; [|lia].
      rewrite (exited_by_mono p n (S n)) by (lia || exact Hstop).
      rewrite Hstop. reflexivity.
    + exists n. split; [reflexivity|]. split; [reflexivity|lia].
Qed.

(** C6, as amended. For a poll interval that [time.sleep] accepts, when
    the loop test [t < time_out] holds before each of the first [n] polls
    and, at poll [n], the child is gone or [t] has reached the deadline,
    [timeout] returns. If the child is found gone by poll [n] (at a poll
    made under the deadline, or at the one poll made after [t] has reached
    it), the value returned is the child's return code, after one sleep
    per poll that found it running, and no signal is sent; if poll [n],
    made after [t] has reached the deadline, still finds the child
    running, [kill -9] is sent to it, once, as the last thing done, and -1
    is returned. *)
Theorem timeout_outcome (command : list string) (time_out : PrimFloat.float)
    (n fuel : nat) :
  valid_interval dt = true ->
  under_deadline dt time_out n = true ->
  exited_by (popen 0%nat command) n || deadline_reached_at dt time_out n = true ->
  (n < fuel)%nat ->
  let p := popen 0%nat command in
  timeout cfg popen fuel command time_out =
    Some (if exited_by p n
          then (PyInt (returncode p),
                Launch command :: repeat (Sleep dt) (sleeps_made p n))
          else (PyInt (-1),
                Launch command :: repeat (Sleep dt) n ++ [Kill9 (pid p)])).
Proof.
  intros _ Hunder Hstop Hfuel p. unfold timeout. fold p.
  destruct (timeout_wait_spec p time_out n fuel Hunder Hstop
              0%nat 0%float [Launch command])
    as (k' & Hw & He & Hle).
  - reflexivity.
  - lia.
  - intros j Hj. lia.
  - lia.
  - rewrite Hw. rewrite Nat.sub_0_r.
    destruct (exited_by p n) eqn:Hex.
    + rewrite (poll_exited p k' He).
      rewrite (poll_exited p (S k')) by (apply (exited_by_mono p k'); [lia|exact He]).
      reflexivity.
    + rewrite (poll_running p k' He).
      assert (Hs : sleeps_made p n = n).
      { unfold sleeps_made. unfold exited_by in Hex.
        destruct (exits_at p) as [e|]; [|reflexivity].
        apply Nat.leb_gt in Hex. lia. }
      rewrite Hs. reflexivity.
Qed.

End RunnerProperties.

(** C7. [timeoutWithReturnStatus] does not always return an exit status.
    With a one-second poll interval and a three-second deadline, a command
    whose first run exits with status 1 (target 0) is launched again; the
    second run is still running when the three seconds have been slept,
    and the value returned is [None], the last poll result, not the last
    exit status obtained (1). With a deadline of 0 the loop body never
    runs and the [return ret] reads an unbound local. *)
Theorem timeoutWithReturnStatus_returns_None :
  timeoutWithReturnStatus cfg_tango fails_then_hangs 10 ["ssh"; "hostA"; "(:)"] 3 0 =
    Some (Ok PyNone,
          [Launch ["ssh"; "hostA"; "(:)"]; Sleep 1;
           Launch ["ssh"; "hostA"; "(:)"]; Sleep 1; Sleep 1]) /\
  timeoutWithReturnStatus cfg_tango finishes_soon 10 ["ssh"; "hostA"; "(:)"] 0 0 =
    Some (Raise (UnboundLocalError "ret"), [Launch ["ssh"; "hostA"; "(:)"]]).
Proof. split; vm_compute; reflexivity. Qed.

(** C6, as stated, fails on a child that is still running when the
    deadline elapses and is gone at the poll made after it. With a
    deadline of 0 the deadline has elapsed when the child is launched, and
    the loop body never runs; a child found gone at the one poll that
    follows is returned with its status 0: it is not sent a signal and -1
    is not returned. Likewise with a poll interval of 1 and a deadline of
    3: the polls made under the deadline all find the child running, [t]
    has reached 3, and the child found gone at the poll after that is
    returned with its status. *)
Lemma timeout_gone_after_deadline_not_killed :
  deadline_reached_at (TIMER_POLL_INTERVAL cfg_tango) 0 0 = true /\
  timeout cfg_tango (gone_at 0 0) 5 ["scp"; "a"; "b"] 0 =
    Some (PyInt 0, [Launch ["scp"; "a"; "b"]]) /\
  timeout cfg_tango (gone_at 0 0) 5 ["scp"; "a"; "b"] 0 <>
    Some (PyInt (-1), [Launch ["scp"; "a"; "b"]; Kill9 4000]) /\
  poll (gone_at 3 0 0%nat ["scp"; "a"; "b"]) 0 = PyNone /\
  poll (gone_at 3 0 0%nat ["scp"; "a"; "b"]) 1 = PyNone /\
  poll (gone_at 3 0 0%nat ["scp"; "a"; "b"]) 2 = PyNone /\
  under_deadline (TIMER_POLL_INTERVAL cfg_tango) 3 3 = true /\
  deadline_reached_at (TIMER_POLL_INTERVAL cfg_tango) 3 3 = true /\
  timeout cfg_tango (gone_at 3 0) 10 ["scp"; "a"; "b"] 3 =
    Some (PyInt 0, [Launch ["scp"; "a"; "b"]; Sleep 1; Sleep 1; Sleep 1]).
Proof.
  split; [reflexivity|]. split; [reflexivity|]. split; [discriminate|].
  repeat split; reflexivity.
Qed.

(** C5, as stated, fails when the prefix contains the separator: with the
    prefix "my-tango", the name of id "17" and image "ubuntu" is read back
    as id "tango" and image "17". *)
Lemma instanceName_parse_dashed_prefix :
  contains dash "17" = false /\ contains dash "ubuntu" = false /\
  instanceName cfg_dashed "17" "ubuntu" = "my-tango-17-ubuntu" /\
  exists m : TangoMachine,
    fst (parse_volume cfg_dashed "hostA" (instanceName cfg_dashed "17" "ubuntu")
           (new_world ["hostA"] ∅ all_succeed lists_vm17 ticking)) = Ok (Some m) /\
    id m = "tango" /\ image m = "17" /\
    (id m, image m) <> ("17", "ubuntu").
Proof.
  repeat split; try reflexivity.
  eexists. split; [vm_compute; reflexivity|].
  repeat split; try reflexivity. discriminate.
Qed.

(** ** LifecycleOrchestrator *)

Section OrchestratorProperties.

Variable cfg : Config.
Variable cwd : string.

(** [destroyVM] always returns, whatever the two commands answer, and
    issues exactly two bounded commands: the forced container removal,
    and [rm -rf] of [getVolumePath ""]. *)
Lemma destroyVM_spec (vm : TangoMachine) (w : World) :
  let target := user_at (hostUser (self w)) (domain_name vm) in
  fst (destroyVM cfg cwd vm w) = Ok tt /\
  issued (snd (destroyVM cfg cwd vm w)) =
    issued w ++
    [ (["ssh"] ++ _SSH_FLAGS ++
       [target; "(docker rm -f " +:+ instanceName cfg (id vm) (image vm) +:+ ")"],
       DOCKER_RM_TIMEOUT cfg);
      (["ssh"] ++ _SSH_FLAGS ++
       [target; "(rm -rf " +:+ getVolumePath cfg cwd ""], 1%Q) ].
Proof.
  cbn. split; [reflexivity|]. rewrite <- app_assoc. reflexivity.
Qed.

(** C1. [copyOut] never reaches the copy or the teardown: building the
    scp argument list reads the unbound name [domain_name], so for every
    machine, destination and world the call raises [NameError] with the
    world unchanged; no command has been issued, [destroyVM] has not
    run, and 0 is not returned. *)
Theorem copyOut_raises_NameError (vm : TangoMachine) (destFile : string) (w : World) :
  copyOut cfg cwd vm destFile w = (Raise (NameError "domain_name"), w).
Proof. reflexivity. Qed.

(** [existsVM] is the enumeration followed by a read of [vmname]. *)
Lemma existsVM_unfold (vm : TangoMachine) (w : World) :
  existsVM cfg cwd vm w =
    match getVMs cfg cwd w with
    | (Ok _, w') => (Raise (NameError "vmname"), w')
    | (Raise e, w') => (Raise e, w')
    end.
Proof.
  unfold existsVM, bind.
  destruct (getVMs cfg cwd w) as [[vms|e] w']; reflexivity.
Qed.

(** C2. [existsVM] returns no boolean, for any machine and any world:
    when the enumeration succeeds the membership test reads the unbound
    name [vmname] and raises [NameError]; when the enumeration raises,
    so does [existsVM]. *)
Theorem existsVM_raises (vm : TangoMachine) (w : World) :
  is_ok (fst (existsVM cfg cwd vm w)) = false /\
  fst (existsVM cfg cwd vm w) =
    match fst (getVMs cfg cwd w) with
    | Ok _ => Raise (NameError "vmname")
    | Raise e => Raise e
    end.
Proof.
  rewrite existsVM_unfold.
  destruct (getVMs cfg cwd w) as [[vms|e] w']; split; reflexivity.
Qed.

(** C9. [safeDestroyVM] does terminate, but by an exception: its loop
    condition is the first thing evaluated after the clock is read, and
    [existsVM] raises. No [destroyVM] is attempted and nothing is
    logged. *)
Theorem safeDestroyVM_raises (fuel : nat) (vm : TangoMachine) (w : World) :
  safeDestroyVM cfg cwd (S fuel) vm w =
    Some (match getVMs cfg cwd (snd (time_time w)) with
          | (Ok _, w') => (Raise (NameError "vmname"), w')
          | (Raise e, w') => (Raise e, w')
          end).
Proof.
  unfold safeDestroyVM. cbn [time_time safeDestroyVM_loop snd].
  rewrite existsVM_unfold.
  destruct (getVMs cfg cwd _) as [[vms|e] w']; reflexivity.
Qed.

(** The copy loop of [copyIn]: the files whose copies return 0 are
    copied in list order, one command each. If all do, the loop returns
    0. At the first copy that returns non-zero the loop stops, with no
    command issued for the files after it; what it then does is raise
    [NameError], not return the code. *)
Lemma copyIn_files_spec (vm : TangoMachine) (copied : list InputFile) :
  forall (w : World) (rest : list InputFile),
    (forall j : nat, (j < length copied)%nat ->
                     outcome w (length (issued w) + j) = 0) ->
    let volumePath := getVolumePath cfg cwd (instanceName cfg (id vm) (image vm)) in
    let run := copyIn_files cfg (domain_name vm) volumePath (copied ++ rest) w in
    let cmd := copy_command cfg cwd (hostUser (self w)) vm in
    match rest with
    | [] => fst run = Ok 0 /\ issued (snd run) = issued w ++ map cmd copied
    | file :: _ =>
        (outcome w (length (issued w) + length copied) =? 0) = false ->
        fst run = Raise (NameError "domain_name") /\
        issued (snd run) = issued w ++ map cmd (copied ++ [file])
    end.
Proof.
  induction copied as [|f copied IH]; intros w rest Hok.
  - cbn [app length map]. rewrite Nat.add_0_r. destruct rest as [|file rest'].
    + cbn. rewrite app_nil_r. split; reflexivity.
    + intros Hr. cbn [copyIn_files]. unfold bind, get_self, call_timeout.
      cbn [outcome with_issued issued]. rewrite Hr. cbn. split; reflexivity.
  - pose proof (Hok 0%nat ltac:(cbn; lia)) as H0. rewrite Nat.add_0_r in H0.
    cbn [app copyIn_files]. unfold bind, get_self, call_timeout, log.
    cbn [outcome with_issued issued]. rewrite H0. cbn [Z.eqb].
    match goal with
    | |- context [copyIn_files _ _ _ (copied ++ rest) ?x] => set (w1 := x)
    end.
    assert (Hlen : length (issued w1) = S (length (issued w))).
    { subst w1. cbn. rewrite length_app. cbn. lia. }
    specialize (IH w1 rest).
    assert (Hok1 : forall j : nat, (j < length copied)%nat ->
                     outcome w1 (length (issued w1) + j) = 0).
    { intros j Hj. rewrite Hlen. subst w1. cbn [outcome with_logged with_issued].
      replace (S (length (issued w)) + j)%nat with (length (issued w) + S j)%nat by lia.
      apply Hok. cbn. lia. }
    specialize (IH Hok1). cbn zeta in IH |- *.
    change (hostUser (self w1)) with (hostUser (self w)) in IH.
    change (issued w1)
      with (issued w ++ [copy_command cfg cwd (hostUser (self w)) vm f]) in IH.
    change (outcome w1) with (outcome w) in IH.
    destruct rest as [|file rest'].
    + destruct IH as [Hr Hi]. split; [exact Hr|].
      rewrite Hi, <- app_assoc. reflexivity.
    + intros Hfail. rewrite length_app in IH. cbn [length] in IH, Hfail.
      replace (length (issued w) + 1 + length copied)%nat
        with (length (issued w) + S (length copied))%nat in IH by lia.
      destruct (IH Hfail) as [Hr Hi]. split; [exact Hr|].
      rewrite Hi, <- app_assoc. reflexivity.
Qed.

(** [copyIn] when the directory reset returns non-zero: that code is
    returned and the reset is the only command issued. *)
Lemma copyIn_reset_fails (vm : TangoMachine) (inputFiles : list InputFile) (w : World) :
  (outcome w (length (issued w)) =? 0) = false ->
  fst (copyIn cfg cwd vm inputFiles w) = Ok (outcome w (length (issued w))) /\
  issued (snd (copyIn cfg cwd vm inputFiles w)) =
    issued w ++ [reset_command cfg cwd (hostUser (self w)) vm].
Proof.
  intros Hr. unfold copyIn, bind, get_self, call_timeout.
  cbn [outcome with_issued issued]. rewrite Hr. cbn. split; reflexivity.
Qed.

End OrchestratorProperties.

(** C8. [destroyVM] on the machine with id "17" and image "ubuntu": both
    commands are issued and the call returns, but the directory removed is
    the base path shared by all machines, [getVolumePath('')], not the
    machine's own directory "/var/volumes/tango-17-ubuntu/". *)
Theorem destroyVM_removes_base_path :
  let w := new_world ["hostA"] ∅ all_succeed lists_vm17 ticking in
  fst (destroyVM cfg_tango "/home/tango" vm17 w) = Ok tt /\
  issued (snd (destroyVM cfg_tango "/home/tango" vm17 w)) =
    [ (["ssh"] ++ _SSH_FLAGS ++ ["ubuntu@hostA"; "(docker rm -f tango-17-ubuntu)"],
       30%Q);
      (["ssh"] ++ _SSH_FLAGS ++ ["ubuntu@hostA"; "(rm -rf /var/volumes//"], 1%Q) ] /\
  getVolumePath cfg_tango "/home/tango"
    (instanceName cfg_tango (id vm17) (image vm17)) = "/var/volumes/tango-17-ubuntu/".
Proof. repeat split; vm_compute; reflexivity. Qed.

(** C3. [copyIn] with two input files, the directory reset and the first
    copy succeeding and the second copy returning 1: the three commands
    are issued in order, and the call does not return 1 but raises
    [NameError], because the error message reads the unbound name
    [domain_name]. *)
Theorem copyIn_failed_copy_raises :
  let w := new_world ["hostA"] ∅ second_copy_fails lists_vm17 ticking in
  fst (copyIn cfg_tango "/home/tango" vm17 two_files w) =
    Raise (NameError "domain_name") /\
  issued (snd (copyIn cfg_tango "/home/tango" vm17 two_files w)) =
    [ (["ssh"] ++ _SSH_FLAGS ++
       ["ubuntu@hostA";
        "(rm -rf /var/volumes/tango-17-ubuntu/; mkdir /var/volumes/tango-17-ubuntu/)"],
       30%Q);
      (["scp"] ++ _SSH_FLAGS ++
       ["/tmp/job/Makefile"; "ubuntu@hostA:/var/volumes/tango-17-ubuntu//Makefile"],
       30%Q);
      (["scp"] ++ _SSH_FLAGS ++
       ["/tmp/job/handin.c"; "ubuntu@hostA:/var/volumes/tango-17-ubuntu//handin.c"],
       30%Q) ].
Proof. split; vm_compute; reflexivity. Qed.

(** ** The statements at sample inputs *)

Lemma getHost_round_robin_witness :
  hostIdx (self world_two_hosts) = 0%nat /\
  exists w' : World,
    calls 2 world_two_hosts = (Ok ["hostA"; "hostB"], w') /\
    self w' = self world_two_hosts /\
    fst (getHost w') = fst (getHost world_two_hosts) /\
    fst (getHost world_two_hosts) = Ok "hostA".
Proof.
  split; [reflexivity|].
  exact (getHost_round_robin world_two_hosts eq_refl).
Defined.

Lemma initializeVM_frame_witness :
  heap world_two_hosts !! 7%nat = Some vm_fresh /\
  hosts (self world_two_hosts) !! hostIdx (self world_two_hosts) = Some "hostA" /\
  exists w' : World,
    initializeVM 7%nat world_two_hosts = (Ok 7%nat, w') /\
    heap w' = <[7%nat := set_domain_name vm_fresh "hostA"]> (heap world_two_hosts) /\
    (exists m' : TangoMachine,
        heap w' !! 7%nat = Some m' /\ domain_name m' = "hostA" /\
        id m' = id vm_fresh /\ image m' = image vm_fresh /\
        name m' = name vm_fresh /\ vmms m' = vmms vm_fresh) /\
    (forall l : loc, l <> 7%nat -> heap w' !! l = heap world_two_hosts !! l).
Proof.
  split; [reflexivity|]. split; [reflexivity|].
  exact (initializeVM_frame world_two_hosts 7%nat vm_fresh "hostA" eq_refl eq_refl).
Defined.

Lemma instanceName_parse_roundtrip_witness :
  re_literal (PREFIX cfg_tango) = true /\
  contains dash (PREFIX cfg_tango) = false /\
  contains dash "17" = false /\
  contains dash "ubuntu" = false /\
  parse_volume cfg_tango "hostA" (instanceName cfg_tango "17" "ubuntu") world_two_hosts =
    (Ok (Some {| vmms := "distDocker"; name := instanceName cfg_tango "17" "ubuntu";
                 domain_name := "hostA"; id := "17"; image := "ubuntu" |}),
     world_two_hosts).
Proof.
  repeat (split; [reflexivity|]).
  exact (instanceName_parse_roundtrip cfg_tango "hostA" "17" "ubuntu" world_two_hosts
           eq_refl eq_refl eq_refl eq_refl).
Defined.

Lemma timeout_outcome_witness :
  valid_interval (TIMER_POLL_INTERVAL cfg_tenth) = true /\
  under_deadline (TIMER_POLL_INTERVAL cfg_tenth) 1 11 = true /\
  deadline_reached_at (TIMER_POLL_INTERVAL cfg_tenth) 1 11 = true /\
  under_deadline (TIMER_POLL_INTERVAL cfg_tenth) 1 12 = false /\
  (11 < 20)%nat /\
  timeout cfg_tenth hangs 20 ["scp"; "a"; "b"] 1 =
    Some (PyInt (-1),
          Launch ["scp"; "a"; "b"] :: repeat (Sleep tenth) 11 ++ [Kill9 4000]) /\
  timeout cfg_tenth (gone_at 11 0) 20 ["scp"; "a"; "b"] 1 =
    Some (PyInt 0, Launch ["scp"; "a"; "b"] :: repeat (Sleep tenth) 11) /\
  timeout cfg_tenth (gone_at 2 7) 20 ["scp"; "a"; "b"] 1 =
    Some (PyInt 7, [Launch ["scp"; "a"; "b"]; Sleep tenth; Sleep tenth]).
Proof.
  assert (Hfuel : (11 < 20)%nat) by lia.
  do 4 (split; [reflexivity|]). split; [exact Hfuel|]. split; [|split].
  - exact (timeout_outcome cfg_tenth hangs ["scp"; "a"; "b"] 1 11 20
             eq_refl eq_refl eq_refl Hfuel).
  - exact (timeout_outcome cfg_tenth (gone_at 11 0) ["scp"; "a"; "b"] 1 11 20
             eq_refl eq_refl eq_refl Hfuel).
  - exact (timeout_outcome cfg_tenth (gone_at 2 7) ["scp"; "a"; "b"] 1 11 20
             eq_refl eq_refl eq_refl Hfuel).
Defined.

(** ** The end-to-end scenarios of the specification *)

(** Pool [hostA; hostB]: three calls return hostA, hostB, hostA. *)
Example three_calls :
  fst (calls 3 world_two_hosts) = Ok ["hostA"; "hostB"; "hostA"].
Proof. vm_compute. reflexivity. Qed.

(** The name of id "17" and image "ubuntu" under the prefix "tango", and
    the record [getVMs] builds for a directory of that name on hostA. *)
Example enumerate_vm17 :
  instanceName cfg_tango "17" "ubuntu" = "tango-17-ubuntu" /\
  fst (getVMs cfg_tango "/home/tango"
         (new_world ["hostA"] ∅ all_succeed lists_vm17 ticking)) = Ok [vm17].
Proof. split; vm_compute; reflexivity. Qed.

(** A directory whose name has the prefix but fewer than three fields
    makes the enumeration raise. *)
Example enumerate_short_name :
  fst (getVMs cfg_tango "/home/tango"
         (new_world ["hostA"] ∅ all_succeed (fun _ => Ok "tango-17") ticking)) =
    Raise IndexError.
Proof. vm_compute. reflexivity. Qed.

(** [existsVM] and [safeDestroyVM] on a machine whose directory is listed. *)
Example existsVM_vm17 :
  fst (existsVM cfg_tango "/home/tango" vm17
         (new_world ["hostA"] ∅ all_succeed lists_vm17 ticking)) =
    Raise (NameError "vmname").
Proof. vm_compute. reflexivity. Qed.

Example safeDestroyVM_vm17 :
  match safeDestroyVM cfg_tango "/home/tango" 5 vm17
          (new_world ["hostA"] ∅ all_succeed lists_vm17 ticking) with
  | Some (r, w') => r = Raise (NameError "vmname") /\ issued w' = [] /\ logged w' = []
  | None => False
  end.
Proof. vm_compute. repeat split; reflexivity. Qed.

(** * Further properties *)

(** ** HostPool: cursor invariant and rotation *)

(** X1. A call of [getHost] at a cursor inside the host list returns the
    host under the cursor, leaves the cursor inside the list, and touches
    nothing else: the host list, the user, the machines, and the records
    of commands, listings, clock readings and log messages are as
    before. *)
Theorem getHost_keeps_cursor_valid (w : World) :
  (hostIdx (self w) < length (hosts (self w)))%nat ->
  exists (h : string) (w' : World),
    getHost w = (Ok h, w') /\
    hosts (self w) !! hostIdx (self w) = Some h /\
    (hostIdx (self w') < length (hosts (self w')))%nat /\
    hosts (self w') = hosts (self w) /\
    hostUser (self w') = hostUser (self w) /\
    heap w' = heap w /\ issued w' = issued w /\ listed w' = listed w /\
    clock_reads w' = clock_reads w /\ logged w' = logged w.
Proof.
  intros Hlt.
  destruct (lookup_lt_is_Some_2 (hosts (self w)) _ Hlt) as [h Hh].
  exists h. eexists. split; [exact (getHost_spec w h Hh)|].
  split; [exact Hh|]. cbn. unfold next_cursor.
  repeat split; try reflexivity.
  destruct (Nat.leb_spec (length (hosts (self w))) (hostIdx (self w) + 1)); lia.
Qed.

Lemma next_cursor_mod (n i : nat) :
  (i < n)%nat -> next_cursor n i = ((i + 1) mod n)%nat.
Proof.
  intros Hi. unfold next_cursor.
  destruct (Nat.leb_spec n (i + 1)) as [Hend|Hmore].
  - assert (i + 1 = n)%nat as -> by lia. symmetry. apply Nat.Div0.mod_same.
  - symmetry. apply Nat.mod_small. exact Hmore.
Qed.

(** The rotation of the cursor over [k] calls. *)
Lemma calls_rotate_from (k : nat) : forall w : World,
  (hostIdx (self w) < length (hosts (self w)))%nat ->
  exists (l : list string) (w' : World),
    calls k w = (Ok l, w') /\
    length l = k /\
    (forall j : nat, (j < k)%nat ->
       l !! j = hosts (self w) !!
                  ((hostIdx (self w) + j) mod length (hosts (self w)))%nat) /\
    hosts (self w') = hosts (self w) /\
    hostIdx (self w') = ((hostIdx (self w) + k) mod length (hosts (self w)))%nat.
Proof.
  induction k as [|k IH]; intros w Hlt.
  - exists [], w. cbn. repeat split; try reflexivity.
    + intros j Hj. lia.
    + rewrite Nat.add_0_r. symmetry. apply Nat.mod_small. exact Hlt.
  - destruct (lookup_lt_is_Some_2 (hosts (self w)) _ Hlt) as [h Hh].
    cbn [calls]. unfold bind at 1. rewrite (getHost_spec w h Hh).
    set (w1 := with_self w _).
    assert (Hhosts : hosts (self w1) = hosts (self w)) by reflexivity.
    assert (Hidx : hostIdx (self w1) =
                   ((hostIdx (self w) + 1) mod length (hosts (self w)))%nat).
    { subst w1. cbn. apply next_cursor_mod. exact Hlt. }
    destruct (IH w1) as (l & w' & Hc & Hlen & Hnth & Hhs & Hcur).
    { rewrite Hhosts, Hidx. apply Nat.mod_upper_bound. lia. }
    exists (h :: l), w'. unfold bind. rewrite Hc. cbn [ret].
    split; [reflexivity|]. split; [cbn; lia|]. split; [|split].
    + intros [|j] Hj.
      * cbn. rewrite Nat.add_0_r, Nat.mod_small by exact Hlt. symmetry. exact Hh.
      * cbn [lookup list_lookup]. change ((h :: l) !! S j) with (l !! j).
        rewrite Hnth by lia. rewrite Hhosts, Hidx.
        rewrite Nat.Div0.add_mod_idemp_l. f_equal. f_equal. lia.
    + rewrite Hhs. exact Hhosts.
    + rewrite Hcur, Hhosts, Hidx. rewrite Nat.Div0.add_mod_idemp_l.
      f_equal. lia.
Qed.

(** X2. From any cursor inside the list, [k] consecutive calls return the
    hosts at positions cursor, cursor+1, ... taken modulo the number of
    hosts, and leave the cursor at (cursor + k) modulo that number. *)
Theorem calls_rotate (k : nat) : forall w : World,
  (hostIdx (self w) < length (hosts (self w)))%nat ->
  exists (l : list string) (w' : World),
    calls k w = (Ok l, w') /\
    length l = k /\
    (forall j : nat, (j < k)%nat ->
       l !! j = hosts (self w) !!
                  ((hostIdx (self w) + j) mod length (hosts (self w)))%nat) /\
    hosts (self w') = hosts (self w) /\
    hostIdx (self w') = ((hostIdx (self w) + k) mod length (hosts (self w)))%nat.
Proof. exact (calls_rotate_from k). Qed.

(** With the lock free and a host under the cursor, [initializeVM_locked]
    is [initializeVM], and leaves the lock free. *)
Lemma initializeVM_locked_free (s : Locked) (vm : loc) (h : string) :
  hostLock s = false ->
  hosts (self (under s)) !! hostIdx (self (under s)) = Some h ->
  initializeVM_locked vm s =
    Done (fst (initializeVM vm (under s)))
         {| under := snd (initializeVM vm (under s)); hostLock := false |}.
Proof.
  intros Hfree Hh. unfold initializeVM_locked, getHost_locked. rewrite Hfree.
  assert (E : forall (k : string -> M loc) (w : World),
             bind getHost k w =
             match getHost w with
             | (Ok a, w') => k a w'
             | (Raise e, w') => (Raise e, w')
             end) by reflexivity.
  unfold initializeVM. rewrite E. rewrite (getHost_spec (under s) h Hh).
  cbn [hostLock under].
  match goal with
  | |- context [match ?m with (r, w') => _ end] => destruct m as [r w']
  end.
  reflexivity.
Qed.

(** X3. On a pool whose cursor designates no host (an empty host list in
    particular) and with [hostLock] free, [initializeVM] raises
    [IndexError] before it touches the machine: the pool, the machines and
    the records are unchanged. The lock, acquired before the list is
    indexed, is left held, so every later [getHost] or [initializeVM] on
    the object waits for it and never returns. *)
Theorem initializeVM_no_host (s : Locked) (vm : loc) :
  hostLock s = false ->
  hosts (self (under s)) !! hostIdx (self (under s)) = None ->
  let s' := {| under := under s; hostLock := true |} in
  initializeVM_locked vm s = Done (Raise IndexError) s' /\
  getHost_locked s' = Blocked /\
  forall vm' : loc, initializeVM_locked vm' s' = Blocked.
Proof.
  intros Hfree Hnone s'. split; [|split; [reflexivity|intros vm'; reflexivity]].
  unfold initializeVM_locked, getHost_locked. rewrite Hfree.
  rewrite (getHost_empty (under s) Hnone). reflexivity.
Qed.

Lemma lookup_repeat {A} (x : A) (n j : nat) :
  (j < n)%nat -> repeat x n !! j = Some x.
Proof.
  revert j. induction n as [|n IH]; intros j Hj; [lia|].
  destruct j as [|j]; [reflexivity|]. cbn. apply IH. lia.
Qed.

(** X4. The constructor on an empty configured volume path ends the
    process with status 1 after one message at level ERROR and builds no
    object. On any other path it builds an object whose pool holds the
    single host 127.0.0.1: however many hosts are asked for, each is
    127.0.0.1. *)
Theorem constructed_pool_is_localhost (cfg : Config) (k : nat) (w : World) :
  match DOCKER_VOLUME_PATH cfg with
  | EmptyString =>
      DistDocker_init cfg =
        Exited 1 [(ERROR, "DOCKER_VOLUME_PATH not defined in config.")]
  | String _ _ =>
      exists d : DistDocker,
        DistDocker_init cfg = Built d /\
        fst (calls k (with_self w d)) = Ok (repeat "127.0.0.1" k)
  end.
Proof.
  unfold DistDocker_init.
  destruct (DOCKER_VOLUME_PATH cfg) as [|c rest]; [reflexivity|].
  cbn [String.length Nat.eqb]. eexists. split; [reflexivity|].
  set (w0 := with_self w _).
  destruct (calls_rotate_from k w0) as (l & w' & Hc & Hlen & Hnth & _ & _).
  { cbn. lia. }
  rewrite Hc. cbn [fst]. f_equal.
  apply list_eq. intros j.
  destruct (Nat.lt_ge_cases j k) as [Hj|Hj].
  - rewrite (Hnth j Hj). cbn [w0 with_self self hosts hostIdx length].
    rewrite Nat.mod_1_r. cbn. symmetry. apply lookup_repeat. exact Hj.
  - rewrite !lookup_ge_None_2; [reflexivity| |]; rewrite ?repeat_length; lia.
Qed.

(** ** NamingScheme: injectivity and what the parse keeps *)

Lemma append_assoc (a b c : string) : (a +:+ b) +:+ c = a +:+ b +:+ c.
Proof.
  induction a as [|x a IH]; [reflexivity|].
  rewrite !append_String, IH. reflexivity.
Qed.

Lemma append_cancel_l (p a b : string) : p +:+ a = p +:+ b -> a = b.
Proof.
  induction p as [|x p IH]; [rewrite !append_nil_l; auto|].
  rewrite !append_String. intros H. injection H as H. exact (IH H).
Qed.

Lemma append_cancel_slash (a b : string) : a +:+ "/" = b +:+ "/" -> a = b.
Proof.
  revert b. induction a as [|x a IH]; intros [|y b].
  - reflexivity.
  - rewrite append_nil_l, append_String. intros H. injection H as _ H.
    destruct b; discriminate H.
  - rewrite append_nil_l, append_String. intros H. injection H as _ H.
    destruct a; discriminate H.
  - rewrite !append_String. intros H. injection H as -> H.
    rewrite (IH b H). reflexivity.
Qed.

Lemma contains_head (c x : ascii) (s : string) :
  contains c (String x s) = false -> x <> c /\ contains c s = false.
Proof.
  cbn -[Ascii.eqb]. destruct (Ascii.eqb_spec x c) as [->|Hne]; [discriminate|].
  intros H. split; assumption.
Qed.

(** Two texts with the same first separator are the same on both sides
    of it. *)
Lemma cut_at_first_sep (sep : ascii) (a1 a2 b1 b2 : string) :
  contains sep a1 = false -> contains sep a2 = false ->
  a1 +:+ String sep b1 = a2 +:+ String sep b2 ->
  a1 = a2 /\ b1 = b2.
Proof.
  revert a2. induction a1 as [|x a1 IH]; intros [|y a2] H1 H2.
  - rewrite !append_nil_l. intros H. injection H as H. split; [reflexivity|exact H].
  - rewrite append_nil_l, append_String. intros H. injection H as Hy _.
    destruct (contains_head sep y a2 H2) as [Hne _]. congruence.
  - rewrite append_nil_l, append_String. intros H. injection H as Hx _.
    destruct (contains_head sep x a1 H1) as [Hne _]. congruence.
  - rewrite !append_String. intros H. injection H as -> H.
    destruct (contains_head sep y a1 H1) as [_ H1'].
    destruct (contains_head sep y a2 H2) as [_ H2'].
    destruct (IH a2 H1' H2' H) as [-> ->]. split; reflexivity.
Qed.

(** Names built by [instanceName] determine a ['-']-free id and the image. *)
Lemma instanceName_cancel (cfg : Config) (i1 i2 img1 img2 : string) :
  contains dash i1 = false ->
  contains dash i2 = false ->
  instanceName cfg i1 img1 = instanceName cfg i2 img2 ->
  i1 = i2 /\ img1 = img2.
Proof.
  intros H1 H2 Heq. unfold instanceName in Heq.
  apply append_cancel_l in Heq.
  change ("-" +:+ i1 +:+ "-" +:+ img1) with (String dash (i1 +:+ String dash img1)) in Heq.
  change ("-" +:+ i2 +:+ "-" +:+ img2) with (String dash (i2 +:+ String dash img2)) in Heq.
  injection Heq as Heq.
  exact (cut_at_first_sep dash i1 i2 img1 img2 H1 H2 Heq).
Qed.

(** X5. [instanceName] is injective on ids without ['-'], whatever the
    prefix and the images: two machines with the same instance name have
    the same id and the same image. *)
Theorem instanceName_injective (cfg : Config) (i1 i2 img1 img2 : string) :
  contains dash i1 = false ->
  contains dash i2 = false ->
  instanceName cfg i1 img1 = instanceName cfg i2 img2 ->
  i1 = i2 /\ img1 = img2.
Proof. exact (instanceName_cancel cfg i1 i2 img1 img2). Qed.

(** X6. Machines get working directories of their own: [getVolumePath]
    sends different instance names to different paths, so two machines
    whose ids have no ['-'] share a directory only if they have the same
    id and image. *)
Theorem getVolumePath_injective (cfg : Config) (cwd : string)
    (i1 i2 img1 img2 : string) :
  contains dash i1 = false ->
  contains dash i2 = false ->
  getVolumePath cfg cwd (instanceName cfg i1 img1) =
    getVolumePath cfg cwd (instanceName cfg i2 img2) ->
  i1 = i2 /\ img1 = img2.
Proof.
  intros H1 H2 Heq. unfold getVolumePath in Heq.
  apply append_cancel_l, append_cancel_slash in Heq.
  exact (instanceName_cancel cfg i1 i2 img1 img2 H1 H2 Heq).
Qed.

Lemma split_nonempty (sep : ascii) (s : string) :
  exists piece rest, split sep s = piece :: rest.
Proof.
  destruct s as [|a s]; [eexists _, _; reflexivity|].
  cbn -[Ascii.eqb]. destruct (Ascii.eqb a sep); [eexists _, _; reflexivity|].
  destruct (split sep s); eexists _, _; reflexivity.
Qed.

Lemma startswith_app (p s : string) : startswith p (p +:+ s) = true.
Proof.
  induction p as [|a p IH]; [reflexivity|].
  rewrite append_String. cbn -[Ascii.eqb].
  rewrite Ascii.eqb_refl. exact IH.
Qed.

(** X7. What the parse of [getVMs] keeps of a name built by
    [instanceName], for a prefix and an id without ['-'] (the prefix being
    text that the pattern match reads literally) and any image: the id,
    and the image up to its first ['-']. An image such as "ubuntu-14.04"
    is read back as "ubuntu". *)
Theorem parse_volume_truncates_image (cfg : Config) (host i img : string) (w : World) :
  re_literal (PREFIX cfg) = true ->
  contains dash (PREFIX cfg) = false ->
  contains dash i = false ->
  parse_volume cfg host (instanceName cfg i img) w =
    (Ok (Some {| vmms := "distDocker"; name := instanceName cfg i img;
                 domain_name := host; id := i;
                 image := List.hd "" (split dash img) |}), w).
Proof.
  intros _ Hp Hi. unfold parse_volume, re_match.
  assert (Hs : startswith (PREFIX cfg +:+ "-") (instanceName cfg i img) = true).
  { unfold instanceName. rewrite <- append_assoc. apply startswith_app. }
  rewrite Hs.
  assert (Hsplit : split dash (instanceName cfg i img) =
                   PREFIX cfg :: i :: split dash img).
  { unfold instanceName.
    change ("-" +:+ i +:+ "-" +:+ img) with (String dash (i +:+ String dash img)).
    rewrite (split_app dash _ _ Hp), (split_app dash _ _ Hi). reflexivity. }
  rewrite Hsplit.
  destruct (split_nonempty dash img) as (piece & rest & ->). reflexivity.
Qed.

(** A directory entry that has the prefix but only one further field
    makes the parse raise [IndexError]. *)
Lemma parse_volume_short_name (cfg : Config) (host x : string) (w : World) :
  contains dash (PREFIX cfg) = false ->
  contains dash x = false ->
  parse_volume cfg host (PREFIX cfg +:+ "-" +:+ x) w = (Raise IndexError, w).
Proof.
  intros Hp Hx. unfold parse_volume, re_match.
  rewrite <- append_assoc, startswith_app, append_assoc.
  change ("-" +:+ x) with (String dash x).
  rewrite (split_app dash _ _ Hp), (split_no_sep dash _ Hx). reflexivity.
Qed.

(** ** Enumeration *)

Section EnumerationProperties.

Variable cfg : Config.
Variable cwd : string.

(** The parse of one entry never changes the world, and ends in one of
    three ways: the entry is skipped, a record is built from it, or
    [IndexError] is raised. *)
Lemma parse_volume_cases (host volume : string) (w : World) :
  parse_volume cfg host volume w = (Ok None, w) \/
  (exists m : TangoMachine,
      parse_volume cfg host volume w = (Ok (Some m), w) /\
      enumerated_from cfg host m /\ name m = volume) \/
  parse_volume cfg host volume w = (Raise IndexError, w).
Proof.
  unfold parse_volume.
  destruct (re_match (PREFIX cfg +:+ "-") volume) eqn:Hm; [|left; reflexivity].
  right. unfold bind, index.
  destruct (split dash volume !! 1%nat) as [i|] eqn:H1; [|right; reflexivity].
  destruct (split dash volume !! 2%nat) as [g|] eqn:H2; [|right; reflexivity].
  left. eexists. split; [reflexivity|]. split; [|reflexivity].
  unfold enumerated_from. cbn. repeat split; assumption.
Qed.

Lemma getVMs_volumes_ok (host : string) (volumes : list string) :
  forall (machines ms : list TangoMachine) (w w' : World),
    getVMs_volumes cfg host volumes machines w = (Ok ms, w') ->
    w' = w /\
    exists new : list TangoMachine,
      ms = machines ++ new /\
      Forall (fun m => enumerated_from cfg host m /\ name m ∈ volumes) new.
Proof.
  induction volumes as [|v volumes IH]; intros machines ms w w' Hrun.
  - cbn in Hrun. injection Hrun as <- <-. split; [reflexivity|].
    exists []. rewrite app_nil_r. split; [reflexivity|constructor].
  - cbn [getVMs_volumes] in Hrun. unfold bind in Hrun.
    destruct (parse_volume_cases host v w) as [Hp|[(m & Hp & Hwf & Hn)|Hp]];
      rewrite Hp in Hrun.
    + destruct (IH _ _ _ _ Hrun) as (-> & new & -> & Hall).
      split; [reflexivity|]. exists new. split; [reflexivity|].
      eapply Forall_impl; [exact Hall|]. cbn. intros m [Hwf Hin].
      split; [exact Hwf|]. apply elem_of_cons. right. exact Hin.
    + destruct (IH _ _ _ _ Hrun) as (-> & new & -> & Hall).
      split; [reflexivity|]. exists (m :: new).
      split; [rewrite <- app_assoc; reflexivity|].
      constructor.
      * split; [exact Hwf|]. rewrite Hn. apply elem_of_cons. left. reflexivity.
      * eapply Forall_impl; [exact Hall|]. cbn. intros m' [Hwf' Hin].
        split; [exact Hwf'|]. apply elem_of_cons. right. exact Hin.
    + discriminate Hrun.
Qed.

Lemma getVMs_volumes_world (host : string) (volumes : list string) :
  forall (machines : list TangoMachine) (w : World),
    snd (getVMs_volumes cfg host volumes machines w) = w.
Proof.
  induction volumes as [|v volumes IH]; intros machines w; [reflexivity|].
  cbn [getVMs_volumes]. unfold bind.
  destruct (parse_volume_cases host v w) as [Hp|[(m & Hp & _)|Hp]]; rewrite Hp.
  - apply IH.
  - apply IH.
  - reflexivity.
Qed.

(** One bad entry is enough for the whole listing of a host to fail. *)
Lemma getVMs_volumes_bad_entry (host bad : string) (volumes : list string) :
  forall (machines : list TangoMachine) (w : World),
    bad ∈ volumes ->
    parse_volume cfg host bad w = (Raise IndexError, w) ->
    getVMs_volumes cfg host volumes machines w = (Raise IndexError, w).
Proof.
  induction volumes as [|v volumes IH]; intros machines w Hin Hbad.
  - apply elem_of_nil in Hin. contradiction.
  - cbn [getVMs_volumes]. unfold bind.
    destruct (parse_volume_cases host v w) as [Hp|[(m & Hp & _)|Hp]]; rewrite Hp;
      try reflexivity.
    + apply elem_of_cons in Hin as [->|Hin]; [congruence|].
      apply IH; assumption.
    + apply elem_of_cons in Hin as [->|Hin]; [congruence|].
      apply IH; assumption.
Qed.

Lemma same_but_listed_refl (w : World) : same_but_listed w w.
Proof. unfold same_but_listed. repeat split; reflexivity. Qed.

Lemma getVMs_hosts_spec (user : string) (hs : list string) :
  forall (machines : list TangoMachine) (w : World),
    let run := getVMs_hosts cfg user (getVolumePath cfg cwd "") hs machines w in
    same_but_listed w (snd run) /\
    (exists n : nat,
        listed (snd run) =
          listed w ++ take n (map (ls_command cfg cwd user) hs) /\
        (is_ok (fst run) = true -> n = length hs)) /\
    (forall ms : list TangoMachine, fst run = Ok ms ->
       exists new : list TangoMachine,
         ms = machines ++ new /\
         Forall (fun m => exists host, host ∈ hs /\ enumerated_from cfg host m) new).
Proof.
  induction hs as [|host hs IH]; intros machines w run.
  - subst run. cbn. split; [apply same_but_listed_refl|]. split.
    + exists 0%nat. rewrite app_nil_r. split; [reflexivity|]. reflexivity.
    + intros ms Hms. injection Hms as <-. exists []. rewrite app_nil_r.
      split; [reflexivity|constructor].
  - set (w1 := with_listed w (listed w ++ [ls_command cfg cwd user host])).
    assert (Hrun : run =
      match listing w (length (listed w)) with
      | Ok out =>
          match getVMs_volumes cfg host (split newline out) machines w1 with
          | (Ok ms1, w2) =>
              getVMs_hosts cfg user (getVolumePath cfg cwd "") hs ms1 w2
          | (Raise e, w2) => (Raise e, w2)
          end
      | Raise e => (Raise e, w1)
      end).
    { subst run. cbn [getVMs_hosts]. unfold bind, check_output.
      destruct (listing w (length (listed w))); reflexivity. }
    rewrite Hrun. clear Hrun run.
    destruct (listing w (length (listed w))) as [out|e].
    + destruct (getVMs_volumes cfg host (split newline out) machines w1)
        as [[ms1|e] w2] eqn:Hvol.
      * destruct (getVMs_volumes_ok _ _ _ _ _ _ Hvol) as (-> & new1 & -> & Hall1).
        destruct (IH (machines ++ new1) w1) as (Hsame & (n & Hl & Hn) & Hms).
        set (run := getVMs_hosts _ _ _ _ _ _) in *.
        split; [|split].
        -- unfold same_but_listed in *. cbn in Hsame. exact Hsame.
        -- exists (S n). rewrite Hl. cbn. rewrite <- app_assoc.
           split; [reflexivity|]. intros Hok. rewrite (Hn Hok). reflexivity.
        -- intros ms Hr. destruct (Hms ms Hr) as (new & -> & Hall).
           exists (new1 ++ new). split; [rewrite app_assoc; reflexivity|].
           apply Forall_app. split.
           ++ eapply Forall_impl; [exact Hall1|]. cbn. intros m [Hwf _].
              exists host. split; [apply elem_of_cons; left; reflexivity|exact Hwf].
           ++ eapply Forall_impl; [exact Hall|]. cbn. intros m (h & Hh & Hwf).
              exists h. split; [apply elem_of_cons; right; exact Hh|exact Hwf].
      * pose proof (getVMs_volumes_world host (split newline out) machines w1) as Hw.
        rewrite Hvol in Hw. cbn in Hw. subst w2. cbn [fst snd].
        split; [unfold same_but_listed; cbn; repeat split; reflexivity|]. split.
        -- exists 1%nat. cbn. split; [reflexivity|discriminate].
        -- intros ms Hr. discriminate Hr.
    + cbn [fst snd].
      split; [unfold same_but_listed; cbn; repeat split; reflexivity|]. split.
      * exists 1%nat. cbn. split; [reflexivity|discriminate].
      * intros ms Hr. discriminate Hr.
Qed.

End EnumerationProperties.

Section EnumerationTheorems.

Variable cfg : Config.
Variable cwd : string.

(** X8. A stray directory breaks the enumeration: if the listing of the
    first host contains an entry "<prefix>-<x>" with no further ['-']
    (prefix and x without ['-'], the prefix being text that the pattern
    match reads literally), [getVMs] raises [IndexError] instead of
    returning the machines, whatever else is listed. *)
Theorem getVMs_stray_directory (w : World) (host : string) (hs : list string)
    (out x : string) :
  re_literal (PREFIX cfg) = true ->
  hosts (self w) = host :: hs ->
  listing w (length (listed w)) = Ok out ->
  contains dash (PREFIX cfg) = false ->
  contains dash x = false ->
  (PREFIX cfg +:+ "-" +:+ x) ∈ split newline out ->
  fst (getVMs cfg cwd w) = Raise IndexError.
Proof.
  intros _ Hhosts Hout Hp Hx Hin.
  unfold getVMs, bind, get_self. rewrite Hhosts.
  cbn [getVMs_hosts]. unfold bind, check_output. rewrite Hout.
  rewrite (getVMs_volumes_bad_entry cfg host (PREFIX cfg +:+ "-" +:+ x)
             (split newline out) [] _ Hin
             (parse_volume_short_name cfg host x _ Hp Hx)).
  reflexivity.
Qed.

(** X9. For a prefix that the pattern match reads literally, every record
    [getVMs] returns is tagged "distDocker", carries a host of the pool as
    its [domain_name], has a name that starts with "<prefix>-", and has as
    [id] and [image] the second and third ['-']-separated fields of that
    name. *)
Theorem getVMs_records (w w' : World) (ms : list TangoMachine) :
  re_literal (PREFIX cfg) = true ->
  getVMs cfg cwd w = (Ok ms, w') ->
  Forall (fun m => exists host : string,
                     host ∈ hosts (self w) /\ enumerated_from cfg host m) ms.
Proof.
  intros _ Hrun. unfold getVMs, bind, get_self in Hrun.
  destruct (getVMs_hosts_spec cfg cwd (hostUser (self w)) (hosts (self w)) [] w)
    as (_ & _ & Hms).
  rewrite Hrun in Hms. destruct (Hms ms eq_refl) as (new & -> & Hall).
  exact Hall.
Qed.

(** X10. [getVMs] only lists. Whether it returns or raises, the pool,
    the machines, the bounded commands issued, the clock and the log are
    as before; when it returns, it has run exactly one listing command per
    host of the pool, in pool order, and when it raises it has run the
    listing commands of an initial part of the pool. *)
Theorem getVMs_only_lists (w : World) :
  same_but_listed w (snd (getVMs cfg cwd w)) /\
  exists n : nat,
    listed (snd (getVMs cfg cwd w)) =
      listed w ++ take n (map (ls_command cfg cwd (hostUser (self w)))
                              (hosts (self w))) /\
    if is_ok (fst (getVMs cfg cwd w)) then n = length (hosts (self w))
    else (n <= length (hosts (self w)))%nat.
Proof.
  destruct (getVMs_hosts_spec cfg cwd (hostUser (self w)) (hosts (self w)) [] w)
    as (Hsame & (n & Hl & Hn) & _).
  change (getVMs_hosts cfg (hostUser (self w)) (getVolumePath cfg cwd "")
            (hosts (self w)) [] w) with (getVMs cfg cwd w) in *.
  split; [exact Hsame|].
  destruct (is_ok (fst (getVMs cfg cwd w))) eqn:Hok.
  - exists n. split; [exact Hl|]. exact (Hn eq_refl).
  - exists (Nat.min n (length (hosts (self w)))). split; [|lia].
    rewrite Hl. f_equal.
    destruct (Nat.le_ge_cases n (length (hosts (self w)))) as [Hle|Hge].
    + rewrite Nat.min_l by exact Hle. reflexivity.
    + rewrite Nat.min_r by exact Hge.
      rewrite !take_ge; [reflexivity| |]; rewrite length_map; lia.
Qed.

End EnumerationTheorems.

(** ** Staging *)

Section StagingProperties.

Variable cfg : Config.
Variable cwd : string.

(** [copyIn] after a directory reset that returned 0 is the copy loop, run
    in the world where the reset has been issued and logged. *)
Lemma copyIn_after_reset (vm : TangoMachine) (inputFiles : list InputFile) (w : World) :
  outcome w (length (issued w)) = 0 ->
  copyIn cfg cwd vm inputFiles w =
    copyIn_files cfg (domain_name vm)
      (getVolumePath cfg cwd (instanceName cfg (id vm) (image vm))) inputFiles
      (with_logged
         (with_issued w (issued w ++ [reset_command cfg cwd (hostUser (self w)) vm]))
         (logged w ++ [(DEBUG, "Volume directory created on VM.")])).
Proof.
  intros H0. unfold copyIn, bind, get_self, call_timeout, log.
  cbn [outcome with_issued issued]. rewrite H0. reflexivity.
Qed.

(** X11. [copyIn] when the reset and every copy return 0: it returns 0,
    and the commands it has issued are the reset followed by one copy per
    input file, in the order of the list. *)
Theorem copyIn_all_copied (vm : TangoMachine) (inputFiles : list InputFile) (w : World) :
  outcome w (length (issued w)) = 0 ->
  (forall j : nat, (j < length inputFiles)%nat ->
                   outcome w (length (issued w) + 1 + j) = 0) ->
  fst (copyIn cfg cwd vm inputFiles w) = Ok 0 /\
  issued (snd (copyIn cfg cwd vm inputFiles w)) =
    issued w ++
    reset_command cfg cwd (hostUser (self w)) vm ::
    map (copy_command cfg cwd (hostUser (self w)) vm) inputFiles.
Proof.
  intros H0 Hall. rewrite (copyIn_after_reset vm inputFiles w H0).
  set (w1 := with_logged _ _).
  pose proof (copyIn_files_spec cfg cwd vm inputFiles w1 []) as Hspec.
  cbn zeta in Hspec. rewrite app_nil_r in Hspec.
  destruct Hspec as [Hr Hi].
  - intros j Hj. subst w1. cbn [outcome issued with_logged with_issued].
    rewrite length_app. cbn [length]. apply Hall. exact Hj.
  - split; [exact Hr|]. rewrite Hi. subst w1. cbn [issued with_logged with_issued self].
    rewrite <- app_assoc. reflexivity.
Qed.

(** X12. [copyIn] stops at the first copy that returns non-zero: the
    commands issued are the reset and the copies up to and including the
    failing one, none for the files after it, and nothing is undone. The
    call then ends by raising [NameError] (its error message reads the
    unbound name [domain_name]). *)
Theorem copyIn_stops_at_first_failure (vm : TangoMachine)
    (copied : list InputFile) (file : InputFile) (rest : list InputFile) (w : World) :
  outcome w (length (issued w)) = 0 ->
  (forall j : nat, (j < length copied)%nat ->
                   outcome w (length (issued w) + 1 + j) = 0) ->
  (outcome w (length (issued w) + 1 + length copied) =? 0) = false ->
  fst (copyIn cfg cwd vm (copied ++ file :: rest) w) =
    Raise (NameError "domain_name") /\
  issued (snd (copyIn cfg cwd vm (copied ++ file :: rest) w)) =
    issued w ++
    reset_command cfg cwd (hostUser (self w)) vm ::
    map (copy_command cfg cwd (hostUser (self w)) vm) (copied ++ [file]).
Proof.
  intros H0 Hall Hfail. rewrite (copyIn_after_reset vm _ w H0).
  set (w1 := with_logged _ _).
  pose proof (copyIn_files_spec cfg cwd vm copied w1 (file :: rest)) as Hspec.
  cbn zeta in Hspec.
  destruct Hspec as [Hr Hi].
  - intros j Hj. subst w1. cbn [outcome issued with_logged with_issued].
    rewrite length_app. cbn [length]. apply Hall. exact Hj.
  - subst w1. cbn [outcome issued with_logged with_issued].
    rewrite length_app. cbn [length]. exact Hfail.
  - split; [exact Hr|]. rewrite Hi. subst w1. cbn [issued with_logged with_issued self].
    rewrite <- app_assoc. reflexivity.
Qed.

End StagingProperties.

(** ** BoundedCommandRunner: edges of the two loops *)

Section RunnerEdges.

Variable cfg : Config.
Variable popen : nat -> list string -> Process.

Local Abbreviation dt := (TIMER_POLL_INTERVAL cfg).

(** X13. With a deadline under which the first loop test [0.0 < time_out]
    fails (0 or less), [timeout] does not wait at all: it polls the child
    once, right after the launch, and if the child is still running it
    kills it and returns -1. This holds for any poll interval. *)
Theorem timeout_nonpositive_deadline (command : list string)
    (time_out : PrimFloat.float) (fuel : nat) :
  PrimFloat.ltb 0 time_out = false ->
  let p := popen 0%nat command in
  timeout cfg popen (S fuel) command time_out =
    Some (if exited_by p 0
          then (PyInt (returncode p), [Launch command])
          else (PyInt (-1), [Launch command; Kill9 (pid p)])).
Proof.
  intros Hle p. unfold timeout. fold p. cbn [timeout_wait].
  rewrite Hle.
  unfold exited_by, poll. destruct (exits_at p) as [e|]; [|reflexivity].
  destruct e as [|e]; reflexivity.
Qed.

(** The loop of [timeoutWithReturnStatus] leaves [ret] bound to [None]
    whenever it has let time pass: the only step that adds to [t] is the
    one taken on a poll that found the child running. *)
Lemma timeoutWithReturnStatus_loop_result (command : list string)
    (time_out : PrimFloat.float) (returnValue : Z) (fuel : nat) :
  forall (i : nat) (p : Process) (k : nat) (t : PrimFloat.float)
         (ret : option pyval) (ev : list Event) (r : result pyval)
         (ev' : list Event),
    ret = None \/ ret = Some PyNone \/ PrimFloat.ltb t time_out = true ->
    timeoutWithReturnStatus_loop cfg popen fuel command time_out returnValue
      i p k t ret ev = Some (r, ev') ->
    r = Ok (PyInt returnValue) \/ r = Ok PyNone \/
    r = Raise (UnboundLocalError "ret").
Proof.
  induction fuel as [|fuel IH]; intros i p k t ret ev r ev' Hinv Hrun;
    [discriminate Hrun|].
  cbn [timeoutWithReturnStatus_loop] in Hrun.
  destruct (PrimFloat.ltb t time_out) eqn:Hlt.
  - destruct (poll p k) as [|r0].
    + eapply IH; [|exact Hrun]. right. left. reflexivity.
    + destruct (Z.eqb_spec r0 returnValue) as [E|Hne].
      * injection Hrun as <- _. left. rewrite E. reflexivity.
      * eapply IH; [|exact Hrun]. right. right. exact Hlt.
  - destruct Hinv as [->|[->|Habs]]; [| |discriminate Habs].
    + injection Hrun as <- _. right. right. reflexivity.
    + injection Hrun as <- _. right. left. reflexivity.
Qed.

(** X14. [timeoutWithReturnStatus] never returns an exit status other
    than the expected one: whenever the call returns a value, the value is
    the expected status or [None]. An unexpected exit status obtained from
    the command is never what the caller gets. *)
Theorem timeoutWithReturnStatus_never_other_status (command : list string)
    (time_out : PrimFloat.float) (returnValue : Z) (fuel : nat)
    (v : pyval) (ev : list Event) :
  timeoutWithReturnStatus cfg popen fuel command time_out returnValue =
    Some (Ok v, ev) ->
  v = PyInt returnValue \/ v = PyNone.
Proof.
  unfold timeoutWithReturnStatus. intros Hrun.
  destruct (timeoutWithReturnStatus_loop_result command time_out returnValue fuel
              _ _ _ _ _ _ _ _ (or_introl eq_refl) Hrun) as [H|[H|H]].
  - injection H as ->. left. reflexivity.
  - injection H as ->. right. reflexivity.
  - discriminate H.
Qed.

(** X15. With a deadline under which the first loop test fails (0 or
    less), [timeoutWithReturnStatus] launches the command and raises
    [UnboundLocalError] without polling it, for any command and expected
    status. *)
Theorem timeoutWithReturnStatus_nonpositive_deadline (command : list string)
    (time_out : PrimFloat.float) (returnValue : Z) (fuel : nat) :
  PrimFloat.ltb 0 time_out = false ->
  timeoutWithReturnStatus cfg popen (S fuel) command time_out returnValue =
    Some (Raise (UnboundLocalError "ret"), [Launch command]).
Proof.
  intros Hle. unfold timeoutWithReturnStatus. cbn [timeoutWithReturnStatus_loop].
  rewrite Hle. reflexivity.
Qed.

Lemma timeoutWithReturnStatus_spins (command : list string)
    (time_out : PrimFloat.float) (returnValue : Z) :
  PrimFloat.ltb 0 time_out = true ->
  (forall i : nat, exists rc : Z,
      poll (popen i command) 0 = PyInt rc /\ rc <> returnValue) ->
  forall (fuel i : nat) (ret : option pyval) (ev : list Event),
    timeoutWithReturnStatus_loop cfg popen fuel command time_out returnValue
      i (popen i command) 0 0%float ret ev = None.
Proof.
  intros Hpos Hfast. induction fuel as [|fuel IH]; intros i ret ev; [reflexivity|].
  cbn [timeoutWithReturnStatus_loop]. rewrite Hpos.
  destruct (Hfast i) as (rc & -> & Hne).
  destruct (Z.eqb_spec rc returnValue) as [E|_]; [contradiction|].
  apply IH.
Qed.

(** X16. The deadline of [timeoutWithReturnStatus] counts only the time
    slept on polls that found the child running. If every run of the
    command is found finished at its first poll with a status other than
    the expected one, no time is ever counted: with a positive deadline
    the loop relaunches the command without end and the call never
    returns, however many steps it is given. *)
Theorem timeoutWithReturnStatus_never_returns (command : list string)
    (time_out : PrimFloat.float) (returnValue : Z) (fuel : nat) :
  PrimFloat.ltb 0 time_out = true ->
  (forall i : nat, exists rc : Z,
      poll (popen i command) 0 = PyInt rc /\ rc <> returnValue) ->
  timeoutWithReturnStatus cfg popen fuel command time_out returnValue = None.
Proof.
  intros Hpos Hfast. unfold timeoutWithReturnStatus.
  apply timeoutWithReturnStatus_spins; assumption.
Qed.

End RunnerEdges.

Section RunnerTiming.

Variable cfg : Config.
Variable popen : nat -> list string -> Process.

Local Abbreviation dt := (TIMER_POLL_INTERVAL cfg).

Lemma killed_sleeps (command : list string) (secs : PrimFloat.float) (k : nat) :
  killed (Launch command :: repeat (Sleep secs) k) = false.
Proof.
  unfold killed. cbn [existsb orb]. induction k as [|k IH]; [reflexivity|exact IH].
Qed.

(** The loop of [timeoutWithReturnStatus] on a first run that is found
    finished with the expected status at poll [e], the loop test holding
    before each poll up to that one. *)
Lemma timeoutWithReturnStatus_loop_success (command : list string)
    (time_out : PrimFloat.float) (returnValue : Z) (p : Process) (e : nat) :
  exits_at p = Some e ->
  returncode p = returnValue ->
  under_deadline dt time_out (S e) = true ->
  forall (fuel k : nat) (t : PrimFloat.float) (ret : option pyval) (ev : list Event),
    t = slept_time dt k ->
    (k <= e)%nat ->
    (e - k < fuel)%nat ->
    timeoutWithReturnStatus_loop cfg popen fuel command time_out returnValue
      0 p k t ret ev =
      Some (Ok (PyInt returnValue), ev ++ repeat (Sleep dt) (e - k)).
Proof.
  intros He Hrc Hunder.
  induction fuel as [|fuel IH]; intros k t ret ev Ht Hk Hfuel; [lia|].
  cbn [timeoutWithReturnStatus_loop]. subst t.
  rewrite (under_deadline_lt _ _ (S e) k Hunder) by lia.
  unfold poll. rewrite He.
  destruct (Nat.leb_spec e k) as [Hle|Hgt].
  - assert (k = e) by lia. subst k. rewrite Hrc, Z.eqb_refl, Nat.sub_diag.
    cbn [repeat]. rewrite app_nil_r. reflexivity.
  - rewrite (IH (S k) (slept_time dt k + dt)%float).
    + rewrite <- app_assoc. cbn [app].
      replace (e - k)%nat with (S (e - S k)) by lia. reflexivity.
    + reflexivity.
    + lia.
    + lia.
Qed.

(** X18. [timeoutWithReturnStatus] on a command whose first run is found
    finished with the expected status at poll [e], the loop test
    [t < time_out] holding before each poll up to that one (and the poll
    interval being one [time.sleep] accepts): the expected status is
    returned after one sleep per earlier poll, and the command is launched
    once. *)
Theorem timeoutWithReturnStatus_success (command : list string)
    (time_out : PrimFloat.float) (returnValue : Z) (e fuel : nat) :
  valid_interval dt = true ->
  exits_at (popen 0%nat command) = Some e ->
  returncode (popen 0%nat command) = returnValue ->
  under_deadline dt time_out (S e) = true ->
  (e < fuel)%nat ->
  timeoutWithReturnStatus cfg popen fuel command time_out returnValue =
    Some (Ok (PyInt returnValue), Launch command :: repeat (Sleep dt) e).
Proof.
  intros _ He Hrc Hunder Hfuel. unfold timeoutWithReturnStatus.
  rewrite (timeoutWithReturnStatus_loop_success command time_out returnValue
             _ e He Hrc Hunder fuel 0%nat 0%float None [Launch command]).
  - rewrite Nat.sub_0_r. reflexivity.
  - reflexivity.
  - lia.
  - lia.
Qed.

Lemma timeoutWithReturnStatus_loop_hang (command : list string)
    (time_out : PrimFloat.float) (returnValue : Z) (p : Process) (n : nat) :
  under_deadline dt time_out n = true ->
  deadline_reached_at dt time_out n = true ->
  (forall k : nat, (k < n)%nat -> exited_by p k = false) ->
  forall (fuel k : nat) (t : PrimFloat.float) (ret : option pyval) (ev : list Event),
    t = slept_time dt k ->
    (k <= n)%nat ->
    ret = Some PyNone \/ (k < n)%nat ->
    (n - k < fuel)%nat ->
    timeoutWithReturnStatus_loop cfg popen fuel command time_out returnValue
      0 p k t ret ev =
      Some (Ok PyNone, ev ++ repeat (Sleep dt) (n - k)).
Proof.
  intros Hunder Hreached Hrun.
  induction fuel as [|fuel IH]; intros k t ret ev Ht Hk Hret Hfuel; [lia|].
  cbn [timeoutWithReturnStatus_loop]. subst t.
  destruct (Nat.lt_ge_cases k n) as [Hlt|Hge].
  - rewrite (under_deadline_lt _ _ n k Hunder Hlt).
    rewrite (poll_running p k (Hrun k Hlt)).
    rewrite (IH (S k) (slept_time dt k + dt)%float).
    + rewrite <- app_assoc. cbn [app].
      replace (n - k)%nat with (S (n - S k)) by lia. reflexivity.
    + reflexivity.
    + lia.
    + left. reflexivity.
    + lia.
  - assert (k = n) by lia. subst k.
    unfold deadline_reached_at in Hreached.
    apply Bool.negb_true_iff in Hreached. rewrite Hreached.
    destruct Hret as [->|Hlt]; [|lia].
    rewrite Nat.sub_diag. cbn [repeat]. rewrite app_nil_r. reflexivity.
Qed.

(** X19. [timeoutWithReturnStatus] on a command whose first run is still
    running at every poll made under the deadline, when [t] reaches the
    deadline after [n] sleeps, [n] at least 1 (and the poll interval is
    one [time.sleep] accepts): it returns [None] after those [n] sleeps,
    and sends no signal, so the child it launched is left running. *)
Theorem timeoutWithReturnStatus_leaves_child (command : list string)
    (time_out : PrimFloat.float) (returnValue : Z) (n fuel : nat) :
  valid_interval dt = true ->
  (0 < n)%nat ->
  under_deadline dt time_out n = true ->
  deadline_reached_at dt time_out n = true ->
  (forall k : nat, (k < n)%nat -> exited_by (popen 0%nat command) k = false) ->
  (n < fuel)%nat ->
  exists ev : list Event,
    timeoutWithReturnStatus cfg popen fuel command time_out returnValue =
      Some (Ok PyNone, ev) /\
    ev = Launch command :: repeat (Sleep dt) n /\
    killed ev = false.
Proof.
  intros _ Hpos Hunder Hreached Hrun Hfuel. unfold timeoutWithReturnStatus.
  rewrite (timeoutWithReturnStatus_loop_hang command time_out returnValue
             _ n Hunder Hreached Hrun fuel 0%nat 0%float None [Launch command]).
  - rewrite Nat.sub_0_r. eexists. split; [reflexivity|]. split; [reflexivity|].
    apply killed_sleeps.
  - reflexivity.
  - lia.
  - right. exact Hpos.
  - lia.
Qed.

End RunnerTiming.

(** ** Readiness *)

Section WaitVMProperties.

Variable cfg : Config.

Lemma budget_over_from_next (ck : nat -> Q) (first : nat) (start_time max_secs : Q)
    (m : nat) :
  budget_over_from ck first start_time max_secs m ->
  budget_over_from ck (S first) start_time max_secs (m - 1).
Proof.
  intros H j Hj. replace (S first + j)%nat with (first + S j)%nat by lia.
  apply H. lia.
Qed.

Lemma budget_over_from_weaken (ck : nat -> Q) (first : nat) (start_time max_secs : Q)
    (m m' : nat) :
  (m <= m')%nat ->
  budget_over_from ck first start_time max_secs m ->
  budget_over_from ck first start_time max_secs m'.
Proof. intros Hle H j Hj. apply H. lia. Qed.

Lemma budget_over_now (ck : nat -> Q) (first : nat) (start_time max_secs : Q) :
  budget_over_from ck first start_time max_secs 0 ->
  Qltb max_secs (ck first - start_time)%Q = true.
Proof. intros H. specialize (H 0%nat (Nat.le_refl 0)). rewrite Nat.add_0_r in H. exact H. Qed.

(** The ping loop ends within the budget: by a [return -1], or with the
    host answering; it issues no bounded command, and if no ping ever
    succeeds it can only end by [return -1]. *)
Lemma waitVM_ping_terminates (domain_name : string) (max_secs start_time : Q)
    (fuel : nat) :
  forall (m : nat) (s : Probe),
    budget_over_from (clock (world s)) (clock_reads (world s)) start_time max_secs m ->
    (m < fuel)%nat ->
    exists (o : option Z) (s' : Probe),
      waitVM_ping cfg fuel domain_name max_secs start_time s = Some (Ok o, s') /\
      clock (world s') = clock (world s) /\
      issued (world s') = issued (world s) /\
      outcome (world s') = outcome (world s) /\
      (o = Some (-1) \/
       (o = None /\
        budget_over_from (clock (world s')) (clock_reads (world s'))
          start_time max_secs m)) /\
      ((forall i : nat, (ping s i =? 0) = false) -> o = Some (-1)).
Proof.
  induction fuel as [|fuel IH]; intros m s Hbudget Hfuel; [lia|].
  cbn [waitVM_ping]. unfold subprocess_call.
  destruct (ping s (length (pinged s)) =? 0) eqn:Hping.
  - eexists None, _. split; [reflexivity|]. cbn.
    repeat split; try reflexivity.
    + right. split; [reflexivity|exact Hbudget].
    + intros Hdown. rewrite Hdown in Hping. discriminate Hping.
  - unfold lift, time_sleep, time_time. cbn [world with_world].
    destruct (Qltb max_secs (clock (world s) (clock_reads (world s)) - start_time))
      eqn:Hover.
    + eexists (Some (-1)), _. split; [reflexivity|]. cbn.
      repeat split; try reflexivity. left. reflexivity.
    + assert (Hm : (0 < m)%nat).
      { destruct m; [|lia].
        rewrite (budget_over_now _ _ _ _ Hbudget) in Hover. discriminate Hover. }
      match goal with
      | |- context [waitVM_ping cfg fuel _ _ _ ?s1] =>
          destruct (IH (m - 1)%nat s1) as (o & s' & Hrun & Hck & His & Hpg & Ho & Hdown)
      end.
      * cbn. apply budget_over_from_next. exact Hbudget.
      * lia.
      * exists o, s'. split; [exact Hrun|]. cbn in Hck, His, Hpg.
        split; [exact Hck|]. split; [exact His|]. split; [exact Hpg|]. split.
        -- destruct Ho as [Ho|[Ho Hb]]; [left; exact Ho|right].
           split; [exact Ho|].
           eapply budget_over_from_weaken; [|exact Hb]. lia.
        -- intros Hd. apply Hdown. cbn. exact Hd.
Qed.

Lemma refused_not_ready (r : Z) :
  r = -1 \/ r = 255 -> negb (r =? -1) && negb (r =? 255) = false.
Proof. intros [->| ->]; reflexivity. Qed.

(** The ssh loop ends within the budget, by [return 0] or [return -1]. *)
Lemma waitVM_ssh_terminates (domain_name : string) (max_secs start_time : Q)
    (fuel : nat) :
  forall (m : nat) (s : Probe),
    budget_over_from (clock (world s)) (clock_reads (world s)) start_time max_secs m ->
    (m < fuel)%nat ->
    exists (r : Z) (s' : Probe),
      waitVM_ssh cfg fuel domain_name max_secs start_time s = Some (Ok r, s') /\
      (r = 0 \/ r = -1) /\
      ((forall i : nat, outcome (world s) i = -1 \/ outcome (world s) i = 255) ->
       r = -1).
Proof.
  induction fuel as [|fuel IH]; intros m s Hbudget Hfuel; [lia|].
  cbn [waitVM_ssh]. unfold lift, waitVM_ssh_attempt, bind, time_time.
  cbn [clock clock_reads with_clock_reads].
  destruct (Qltb max_secs (clock (world s) (clock_reads (world s)) - start_time))
    eqn:Hover.
  - cbn. eexists _, _. split; [reflexivity|]. split; [right; reflexivity|].
    intros _. reflexivity.
  - assert (Hm : (0 < m)%nat).
    { destruct m; [|lia].
      rewrite (budget_over_now _ _ _ _ Hbudget) in Hover. discriminate Hover. }
    unfold get_self, call_timeout, log. cbn [outcome issued with_clock_reads].
    destruct (negb (outcome (world s) (length (issued (world s))) =? -1) &&
              negb (outcome (world s) (length (issued (world s))) =? 255)) eqn:Hgood.
    + cbn. eexists _, _. split; [reflexivity|]. split; [left; reflexivity|].
      intros Hrefused. rewrite (refused_not_ready _ (Hrefused _)) in Hgood.
      discriminate Hgood.
    + cbn [ret].
      match goal with
      | |- context [waitVM_ssh cfg fuel _ _ _ ?s1] =>
          destruct (IH (m - 1)%nat s1) as (r & s' & Hrun & Hr & Hrefused)
      end.
      * cbn. apply budget_over_from_next. exact Hbudget.
      * lia.
      * exists r, s'. split; [exact Hrun|]. split; [exact Hr|].
        intros Href. apply Hrefused. cbn. exact Href.
Qed.

(** X20. [waitVM] gives up within its budget. With a poll interval that
    [time.sleep] accepts: if, from the [m]-th clock reading after the
    start on, more than [max_secs] have passed since the call started, the
    call returns within [m]+1 turns of each of its loops, and what it
    returns is 0 or -1, whatever the pings and the remote shell answer. *)
Theorem waitVM_terminates (vm : TangoMachine) (max_secs : Q) (s : Probe)
    (m fuel : nat) :
  valid_interval (TIMER_POLL_INTERVAL cfg) = true ->
  budget_over_from (clock (world s)) (S (clock_reads (world s)))
    (clock (world s) (clock_reads (world s))) max_secs m ->
  (m < fuel)%nat ->
  exists (r : Z) (s' : Probe),
    waitVM cfg fuel vm max_secs s = Some (Ok r, s') /\ (r = 0 \/ r = -1).
Proof.
  intros _ Hbudget Hfuel. unfold waitVM.
  unfold lift at 1, time_time. cbn [world with_world].
  match goal with
  | |- context [waitVM_ping cfg fuel ?dn ?mx ?st ?s0] =>
      destruct (waitVM_ping_terminates dn mx st fuel m s0)
        as (o & s1 & Hrun & Hck & _ & _ & Ho & _)
  end.
  - cbn. exact Hbudget.
  - exact Hfuel.
  - rewrite Hrun. destruct Ho as [->|[-> Hb]].
    + eexists _, _. split; [reflexivity|]. right. reflexivity.
    + unfold lift at 1, log.
      match goal with
      | |- context [waitVM_ssh cfg fuel ?dn ?mx ?st ?s2] =>
          destruct (waitVM_ssh_terminates dn mx st fuel m s2)
            as (r & s' & Hssh & Hr & _)
      end.
      * cbn. exact Hb.
      * exact Hfuel.
      * exists r, s'. split; [exact Hssh|exact Hr].
Qed.

(** X23. A host whose remote shell only ever times out (-1) or fails to
    connect (255) is not reported ready, however its pings go: under the
    same budget, and with a poll interval that [time.sleep] accepts,
    [waitVM] returns -1. *)
Theorem waitVM_shell_refused (vm : TangoMachine) (max_secs : Q) (s : Probe)
    (m fuel : nat) :
  valid_interval (TIMER_POLL_INTERVAL cfg) = true ->
  (forall i : nat, outcome (world s) i = -1 \/ outcome (world s) i = 255) ->
  budget_over_from (clock (world s)) (S (clock_reads (world s)))
    (clock (world s) (clock_reads (world s))) max_secs m ->
  (m < fuel)%nat ->
  exists s' : Probe, waitVM cfg fuel vm max_secs s = Some (Ok (-1), s').
Proof.
  intros _ Hrefused Hbudget Hfuel. unfold waitVM.
  unfold lift at 1, time_time. cbn [world with_world].
  match goal with
  | |- context [waitVM_ping cfg fuel ?dn ?mx ?st ?s0] =>
      destruct (waitVM_ping_terminates dn mx st fuel m s0)
        as (o & s1 & Hrun & Hck & _ & Hout & Ho & _)
  end.
  - cbn. exact Hbudget.
  - exact Hfuel.
  - rewrite Hrun. cbn in Hout. destruct Ho as [->|[-> Hb]].
    + eexists. reflexivity.
    + unfold lift at 1, log.
      match goal with
      | |- context [waitVM_ssh cfg fuel ?dn ?mx ?st ?s2] =>
          destruct (waitVM_ssh_terminates dn mx st fuel m s2)
            as (r & s' & Hssh & _ & Hr)
      end.
      * cbn. exact Hb.
      * exact Hfuel.
      * exists s'. rewrite Hssh, Hr; [reflexivity|].
        intros i. cbn. rewrite Hout. apply Hrefused.
Qed.


(** X22. The ready path of [waitVM]: when the first ping succeeds, the
    budget is not exceeded at the first check, and the remote shell
    returns anything but -1 and 255 (a failure status such as 1
    included), the call returns 0. It has pinged once, has not slept, and
    has issued one bounded command, whose deadline is what is left of the
    budget. *)
Theorem waitVM_ready (vm : TangoMachine) (max_secs : Q) (s : Probe) (fuel : nat) :
  let start_time := clock (world s) (clock_reads (world s)) in
  let elapsed_secs := (clock (world s) (S (clock_reads (world s))) - start_time)%Q in
  let r := outcome (world s) (length (issued (world s))) in
  ping s (length (pinged s)) = 0 ->
  Qltb max_secs elapsed_secs = false ->
  r <> -1 ->
  r <> 255 ->
  exists s' : Probe,
    waitVM cfg (S fuel) vm max_secs s = Some (Ok 0, s') /\
    pinged s' = pinged s ++ ["ping -c 1 " +:+ domain_name vm] /\
    slept s' = slept s /\
    issued (world s') =
      issued (world s) ++
      [(ssh_probe_command (hostUser (self (world s))) (domain_name vm),
        (max_secs - elapsed_secs)%Q)].
Proof.
  intros start_time elapsed_secs r Hping Hin H1 H255.
  unfold waitVM, lift, time_time. cbn [world with_world waitVM_ping].
  unfold subprocess_call. cbn [ping pinged world with_world]. rewrite Hping. cbn [Z.eqb].
  unfold log. cbn [world with_world waitVM_ssh].
  unfold lift, waitVM_ssh_attempt, bind, time_time, get_self, call_timeout, log.
  cbn [world with_world clock clock_reads with_clock_reads with_logged
       outcome issued with_issued self].
  fold start_time. fold elapsed_secs. rewrite Hin.
  cbn -[Z.eqb Qminus]. fold r.
  destruct (Z.eqb_spec r (-1)) as [E|_]; [contradiction|].
  destruct (Z.eqb_spec r 255) as [E|_]; [contradiction|].
  cbn -[Qminus]. eexists. split; [reflexivity|]. cbn -[Qminus].
  repeat split; reflexivity.
Qed.

End WaitVMProperties.

(** ** The failed reset *)

Section TeardownProperties.

Variable cfg : Config.
Variable cwd : string.

(** X25. [copyIn] when the directory reset returns non-zero: that code is
    what the call returns, the reset is the only command issued, so no
    file is copied, and nothing is logged. *)
Theorem copyIn_reset_failure (vm : TangoMachine) (inputFiles : list InputFile) (w : World) :
  (outcome w (length (issued w)) =? 0) = false ->
  fst (copyIn cfg cwd vm inputFiles w) = Ok (outcome w (length (issued w))) /\
  issued (snd (copyIn cfg cwd vm inputFiles w)) =
    issued w ++ [reset_command cfg cwd (hostUser (self w)) vm] /\
  logged (snd (copyIn cfg cwd vm inputFiles w)) = logged w.
Proof.
  intros Hr. destruct (copyIn_reset_fails cfg cwd vm inputFiles w Hr) as [H1 H2].
  split; [exact H1|]. split; [exact H2|].
  unfold copyIn, bind, get_self, call_timeout.
  cbn [outcome with_issued issued]. rewrite Hr. reflexivity.
Qed.

End TeardownProperties.

(** ** The further statements at sample inputs *)

Lemma getHost_keeps_cursor_valid_witness :
  (hostIdx (self world_two_hosts) < length (hosts (self world_two_hosts)))%nat /\
  exists (h : string) (w' : World),
    getHost world_two_hosts = (Ok h, w') /\
    hosts (self world_two_hosts) !! hostIdx (self world_two_hosts) = Some h /\
    (hostIdx (self w') < length (hosts (self w')))%nat /\
    hosts (self w') = hosts (self world_two_hosts) /\
    hostUser (self w') = hostUser (self world_two_hosts) /\
    heap w' = heap world_two_hosts /\ issued w' = issued world_two_hosts /\
    listed w' = listed world_two_hosts /\
    clock_reads w' = clock_reads world_two_hosts /\
    logged w' = logged world_two_hosts.
Proof.
  assert (H : (hostIdx (self world_two_hosts) < length (hosts (self world_two_hosts)))%nat)
    by (cbn; lia).
  split; [exact H|]. exact (getHost_keeps_cursor_valid world_two_hosts H).
Defined.

Lemma calls_rotate_witness :
  (hostIdx (self world_two_hosts) < length (hosts (self world_two_hosts)))%nat /\
  exists (l : list string) (w' : World),
    calls 5 world_two_hosts = (Ok l, w') /\
    length l = 5%nat /\
    (forall j : nat, (j < 5)%nat ->
       l !! j = hosts (self world_two_hosts) !!
                  ((hostIdx (self world_two_hosts) + j)
                   mod length (hosts (self world_two_hosts)))%nat) /\
    hosts (self w') = hosts (self world_two_hosts) /\
    hostIdx (self w') =
      ((hostIdx (self world_two_hosts) + 5)
       mod length (hosts (self world_two_hosts)))%nat.
Proof.
  assert (H : (hostIdx (self world_two_hosts) < length (hosts (self world_two_hosts)))%nat)
    by (cbn; lia).
  split; [exact H|]. exact (calls_rotate 5 world_two_hosts H).
Defined.

Lemma initializeVM_no_host_witness :
  let s := {| under := world_no_hosts; hostLock := false |} in
  let s' := {| under := world_no_hosts; hostLock := true |} in
  hostLock s = false /\
  hosts (self (under s)) !! hostIdx (self (under s)) = None /\
  initializeVM_locked 7%nat s = Done (Raise IndexError) s' /\
  getHost_locked s' = Blocked /\
  forall vm' : loc, initializeVM_locked vm' s' = Blocked.
Proof.
  intros s s'. split; [reflexivity|]. split; [reflexivity|].
  exact (initializeVM_no_host s 7%nat eq_refl eq_refl).
Defined.

Lemma instanceName_injective_witness :
  contains dash "17" = false /\
  contains dash "17" = false /\
  instanceName cfg_dashed "17" "ubuntu-14.04" = instanceName cfg_dashed "17" "ubuntu-14.04" /\
  "17" = "17" /\ "ubuntu-14.04" = "ubuntu-14.04".
Proof.
  do 3 (split; [reflexivity|]).
  exact (instanceName_injective cfg_dashed "17" "17" "ubuntu-14.04" "ubuntu-14.04"
           eq_refl eq_refl eq_refl).
Defined.

Lemma getVolumePath_injective_witness :
  contains dash "17" = false /\
  contains dash "17" = false /\
  getVolumePath cfg_tango "/home/tango" (instanceName cfg_tango "17" "ubuntu") =
    getVolumePath cfg_tango "/home/tango" (instanceName cfg_tango "17" "ubuntu") /\
  "17" = "17" /\ "ubuntu" = "ubuntu".
Proof.
  do 3 (split; [reflexivity|]).
  exact (getVolumePath_injective cfg_tango "/home/tango" "17" "17" "ubuntu" "ubuntu"
           eq_refl eq_refl eq_refl).
Defined.

Lemma parse_volume_truncates_image_witness :
  re_literal (PREFIX cfg_tango) = true /\
  contains dash (PREFIX cfg_tango) = false /\
  contains dash "17" = false /\
  parse_volume cfg_tango "hostA" (instanceName cfg_tango "17" "ubuntu-14.04")
    world_two_hosts =
    (Ok (Some {| vmms := "distDocker";
                 name := instanceName cfg_tango "17" "ubuntu-14.04";
                 domain_name := "hostA"; id := "17";
                 image := List.hd "" (split dash "ubuntu-14.04") |}),
     world_two_hosts) /\
  List.hd "" (split dash "ubuntu-14.04") = "ubuntu".
Proof.
  do 3 (split; [reflexivity|]).
  split; [|reflexivity].
  exact (parse_volume_truncates_image cfg_tango "hostA" "17" "ubuntu-14.04"
           world_two_hosts eq_refl eq_refl eq_refl).
Defined.

Lemma getVMs_stray_directory_witness :
  let w := new_world ["hostA"] ∅ all_succeed lists_stray ticking in
  re_literal (PREFIX cfg_tango) = true /\
  hosts (self w) = ["hostA"] /\
  listing w (length (listed w)) =
    Ok ("tango-17-ubuntu" +:+ String newline ("tango-lost" +:+ String newline "")) /\
  contains dash (PREFIX cfg_tango) = false /\
  contains dash "lost" = false /\
  fst (getVMs cfg_tango "/home/tango" w) = Raise IndexError.
Proof.
  intros w. do 5 (split; [reflexivity|]).
  refine (getVMs_stray_directory cfg_tango "/home/tango" w "hostA" [] _ "lost"
            eq_refl eq_refl eq_refl eq_refl eq_refl _).
  apply list_elem_of_further, list_elem_of_here.
Defined.

Lemma getVMs_records_witness :
  let w := new_world ["hostA"] ∅ all_succeed lists_vm17 ticking in
  re_literal (PREFIX cfg_tango) = true /\
  getVMs cfg_tango "/home/tango" w =
    (Ok [vm17], snd (getVMs cfg_tango "/home/tango" w)) /\
  Forall (fun m => exists host : string,
                     host ∈ hosts (self w) /\ enumerated_from cfg_tango host m) [vm17].
Proof.
  intros w. split; [reflexivity|]. split; [reflexivity|].
  exact (getVMs_records cfg_tango "/home/tango" w _ [vm17] eq_refl eq_refl).
Defined.

Lemma copyIn_all_copied_witness :
  let w := new_world ["hostA"] ∅ all_succeed lists_vm17 ticking in
  outcome w (length (issued w)) = 0 /\
  (forall j : nat, (j < length two_files)%nat ->
                   outcome w (length (issued w) + 1 + j) = 0) /\
  fst (copyIn cfg_tango "/home/tango" vm17 two_files w) = Ok 0 /\
  issued (snd (copyIn cfg_tango "/home/tango" vm17 two_files w)) =
    issued w ++
    reset_command cfg_tango "/home/tango" (hostUser (self w)) vm17 ::
    map (copy_command cfg_tango "/home/tango" (hostUser (self w)) vm17) two_files.
Proof.
  intros w.
  assert (Hall : forall j : nat, (j < length two_files)%nat ->
                   outcome w (length (issued w) + 1 + j) = 0)
    by (intros j _; reflexivity).
  split; [reflexivity|]. split; [exact Hall|].
  exact (copyIn_all_copied cfg_tango "/home/tango" vm17 two_files w eq_refl Hall).
Defined.

Lemma copyIn_stops_at_first_failure_witness :
  let w := new_world ["hostA"] ∅ second_copy_fails lists_vm17 ticking in
  let f1 := {| localFile := ["/tmp/job/Makefile"]; destFile := "Makefile" |} in
  let f2 := {| localFile := ["/tmp/job/handin.c"]; destFile := "handin.c" |} in
  outcome w (length (issued w)) = 0 /\
  (forall j : nat, (j < length [f1])%nat ->
                   outcome w (length (issued w) + 1 + j) = 0) /\
  (outcome w (length (issued w) + 1 + length [f1]) =? 0) = false /\
  fst (copyIn cfg_tango "/home/tango" vm17 ([f1] ++ f2 :: []) w) =
    Raise (NameError "domain_name") /\
  issued (snd (copyIn cfg_tango "/home/tango" vm17 ([f1] ++ f2 :: []) w)) =
    issued w ++
    reset_command cfg_tango "/home/tango" (hostUser (self w)) vm17 ::
    map (copy_command cfg_tango "/home/tango" (hostUser (self w)) vm17) ([f1] ++ [f2]).
Proof.
  intros w f1 f2.
  assert (Hall : forall j : nat, (j < length [f1])%nat ->
                   outcome w (length (issued w) + 1 + j) = 0).
  { intros j Hj. destruct j as [|j]; [reflexivity|]. cbn in Hj. lia. }
  split; [reflexivity|]. split; [exact Hall|]. split; [reflexivity|].
  exact (copyIn_stops_at_first_failure cfg_tango "/home/tango" vm17 [f1] f2 [] w
           eq_refl Hall eq_refl).
Defined.

Lemma copyIn_reset_failure_witness :
  let w := new_world ["hostA"] ∅ all_fail lists_vm17 ticking in
  (outcome w (length (issued w)) =? 0) = false /\
  fst (copyIn cfg_tango "/home/tango" vm17 two_files w) =
    Ok (outcome w (length (issued w))) /\
  issued (snd (copyIn cfg_tango "/home/tango" vm17 two_files w)) =
    issued w ++ [reset_command cfg_tango "/home/tango" (hostUser (self w)) vm17] /\
  logged (snd (copyIn cfg_tango "/home/tango" vm17 two_files w)) = logged w.
Proof.
  intros w. split; [reflexivity|].
  exact (copyIn_reset_failure cfg_tango "/home/tango" vm17 two_files w eq_refl).
Defined.

Lemma timeout_nonpositive_deadline_witness :
  PrimFloat.ltb 0 0 = false /\
  timeout cfg_tango hangs 1 ["scp"; "a"; "b"] 0 =
    Some (PyInt (-1), [Launch ["scp"; "a"; "b"]; Kill9 4000]).
Proof.
  split; [reflexivity|].
  exact (timeout_nonpositive_deadline cfg_tango hangs ["scp"; "a"; "b"] 0 0 eq_refl).
Defined.

Lemma timeoutWithReturnStatus_never_other_status_witness :
  timeoutWithReturnStatus cfg_tango fails_then_hangs 10 ["ssh"; "hostA"; "(:)"] 3 0 =
    Some (Ok PyNone,
          [Launch ["ssh"; "hostA"; "(:)"]; Sleep 1;
           Launch ["ssh"; "hostA"; "(:)"]; Sleep 1; Sleep 1]) /\
  (PyNone = PyInt 0 \/ PyNone = PyNone).
Proof.
  split; [reflexivity|].
  exact (timeoutWithReturnStatus_never_other_status cfg_tango fails_then_hangs
           ["ssh"; "hostA"; "(:)"] 3 0 10 PyNone _ eq_refl).
Defined.

Lemma timeoutWithReturnStatus_nonpositive_deadline_witness :
  PrimFloat.ltb 0 0 = false /\
  timeoutWithReturnStatus cfg_tango finishes_soon 1 ["ssh"; "hostA"; "(:)"] 0 0 =
    Some (Raise (UnboundLocalError "ret"), [Launch ["ssh"; "hostA"; "(:)"]]).
Proof.
  split; [reflexivity|].
  exact (timeoutWithReturnStatus_nonpositive_deadline cfg_tango finishes_soon
           ["ssh"; "hostA"; "(:)"] 0 0 0 eq_refl).
Defined.

Lemma timeoutWithReturnStatus_never_returns_witness :
  PrimFloat.ltb 0 3 = true /\
  (forall i : nat, exists rc : Z,
      poll (fails_at_once i ["false"]) 0 = PyInt rc /\ rc <> 0) /\
  timeoutWithReturnStatus cfg_tango fails_at_once 1000 ["false"] 3 0 = None.
Proof.
  assert (Hfast : forall i : nat, exists rc : Z,
             poll (fails_at_once i ["false"]) 0 = PyInt rc /\ rc <> 0).
  { intros i. exists 1. split; [reflexivity|discriminate]. }
  split; [reflexivity|]. split; [exact Hfast|].
  exact (timeoutWithReturnStatus_never_returns cfg_tango fails_at_once ["false"] 3 0
           1000 eq_refl Hfast).
Defined.

Lemma timeoutWithReturnStatus_success_witness :
  valid_interval (TIMER_POLL_INTERVAL cfg_tenth) = true /\
  exits_at (finishes_soon 0%nat ["ssh"; "hostA"; "(:)"]) = Some 2%nat /\
  returncode (finishes_soon 0%nat ["ssh"; "hostA"; "(:)"]) = 0 /\
  under_deadline (TIMER_POLL_INTERVAL cfg_tenth) 1 3 = true /\
  (2 < 10)%nat /\
  timeoutWithReturnStatus cfg_tenth finishes_soon 10 ["ssh"; "hostA"; "(:)"] 1 0 =
    Some (Ok (PyInt 0), [Launch ["ssh"; "hostA"; "(:)"]; Sleep tenth; Sleep tenth]).
Proof.
  assert (Hfuel : (2 < 10)%nat) by lia.
  do 4 (split; [reflexivity|]). split; [exact Hfuel|].
  exact (timeoutWithReturnStatus_success cfg_tenth finishes_soon
           ["ssh"; "hostA"; "(:)"] 1 0 2 10 eq_refl eq_refl eq_refl eq_refl Hfuel).
Defined.

Lemma timeoutWithReturnStatus_leaves_child_witness :
  valid_interval (TIMER_POLL_INTERVAL cfg_tenth) = true /\
  (0 < 11)%nat /\
  under_deadline (TIMER_POLL_INTERVAL cfg_tenth) 1 11 = true /\
  deadline_reached_at (TIMER_POLL_INTERVAL cfg_tenth) 1 11 = true /\
  (forall k : nat, (k < 11)%nat ->
                   exited_by (hangs 0%nat ["ssh"; "hostA"; "(:)"]) k = false) /\
  (11 < 20)%nat /\
  exists ev : list Event,
    timeoutWithReturnStatus cfg_tenth hangs 20 ["ssh"; "hostA"; "(:)"] 1 0 =
      Some (Ok PyNone, ev) /\
    ev = Launch ["ssh"; "hostA"; "(:)"] :: repeat (Sleep tenth) 11 /\
    killed ev = false.
Proof.
  assert (Hpos : (0 < 11)%nat) by lia.
  assert (Hrun : forall k : nat, (k < 11)%nat ->
                   exited_by (hangs 0%nat ["ssh"; "hostA"; "(:)"]) k = false)
    by (intros k _; reflexivity).
  assert (Hfuel : (11 < 20)%nat) by lia.
  split; [reflexivity|]. split; [exact Hpos|]. split; [reflexivity|].
  split; [reflexivity|]. split; [exact Hrun|]. split; [exact Hfuel|].
  exact (timeoutWithReturnStatus_leaves_child cfg_tenth hangs
           ["ssh"; "hostA"; "(:)"] 1 0 11 20 eq_refl Hpos eq_refl eq_refl Hrun Hfuel).
Defined.

(** With a poll interval of 0.1 the running total reaches the deadline
    0.30000000000000004 after three sleeps: a child that would be found
    gone at the next poll is not polled again, and the call returns
    [None]. *)
Example timeoutWithReturnStatus_deadline_met_exactly :
  under_deadline tenth 0x1.3333333333334p-2 4 = false /\
  timeoutWithReturnStatus cfg_tenth (gone_at 3 0) 10 ["ssh"; "hostA"; "(:)"]
      0x1.3333333333334p-2 0 =
    Some (Ok PyNone, Launch ["ssh"; "hostA"; "(:)"] :: repeat (Sleep tenth) 3).
Proof. split; reflexivity. Qed.

(** With a poll interval of 0.1 and a deadline of 1, ten sleeps leave the
    running total under the deadline (0.9999999999999999): the child is
    polled an eleventh time. *)
Example eleven_polls_under_deadline_1 :
  under_deadline tenth 1 11 = true /\
  under_deadline tenth 1 12 = false /\
  timeoutWithReturnStatus cfg_tenth (gone_at 10 0) 20 ["ssh"; "hostA"; "(:)"] 1 0 =
    Some (Ok (PyInt 0), Launch ["ssh"; "hostA"; "(:)"] :: repeat (Sleep tenth) 10).
Proof. repeat split; reflexivity. Qed.

Lemma ticking_budget (max_secs : Z) (m : nat) :
  (max_secs <= Z.of_nat m)%Z ->
  budget_over_from ticking 1 (ticking 0) (inject_Z max_secs) m.
Proof.
  intros Hm j Hj. unfold Qltb, ticking.
  destruct (Qle_bool (inject_Z (Z.of_nat (1 + j)) - inject_Z (Z.of_nat 0))
              (inject_Z max_secs)) eqn:E; [|reflexivity].
  apply Qle_bool_iff in E. unfold Qle in E. cbn in E. lia.
Qed.

Lemma waitVM_terminates_witness :
  let s := new_probe (new_world ["hostA"] ∅ refused_then_timed_out lists_vm17 ticking)
             answers_second in
  valid_interval (TIMER_POLL_INTERVAL cfg_tango) = true /\
  budget_over_from (clock (world s)) (S (clock_reads (world s)))
    (clock (world s) (clock_reads (world s))) 3 3 /\
  (3 < 5)%nat /\
  exists (r : Z) (s' : Probe),
    waitVM cfg_tango 5 vm17 3 s = Some (Ok r, s') /\ (r = 0 \/ r = -1).
Proof.
  intros s.
  assert (Hb : budget_over_from (clock (world s)) (S (clock_reads (world s)))
                 (clock (world s) (clock_reads (world s))) 3 3)
    by (apply (ticking_budget 3 3); lia).
  assert (Hfuel : (3 < 5)%nat) by lia.
  split; [reflexivity|]. split; [exact Hb|]. split; [exact Hfuel|].
  exact (waitVM_terminates cfg_tango vm17 3 s 3 5 eq_refl Hb Hfuel).
Defined.

(** The run of that call: a failed ping, a sleep, a ping that is
    answered, then two tries of the remote shell with what is left of the
    budget, each followed by a sleep, and -1 once the budget is over. *)
Example waitVM_gives_up_after_retries :
  match waitVM cfg_tango 5 vm17 3
          (new_probe (new_world ["hostA"] ∅ refused_then_timed_out lists_vm17 ticking)
             answers_second) with
  | Some (r, s') =>
      r = Ok (-1) /\
      pinged s' = ["ping -c 1 hostA"; "ping -c 1 hostA"] /\
      slept s' = [1%float; 1%float; 1%float] /\
      map fst (issued (world s')) =
        [ssh_probe_command "ubuntu" "hostA"; ssh_probe_command "ubuntu" "hostA"] /\
      Forall2 Qeq (map snd (issued (world s'))) [1%Q; 0%Q]
  | None => False
  end.
Proof.
  vm_compute. repeat split; try reflexivity; repeat constructor.
Qed.


Lemma waitVM_shell_refused_witness :
  let s := new_probe (new_world ["hostA"] ∅ shell_refuses lists_vm17 ticking) host_up in
  valid_interval (TIMER_POLL_INTERVAL cfg_tango) = true /\
  (forall i : nat, outcome (world s) i = -1 \/ outcome (world s) i = 255) /\
  budget_over_from (clock (world s)) (S (clock_reads (world s)))
    (clock (world s) (clock_reads (world s))) 3 3 /\
  (3 < 5)%nat /\
  exists s' : Probe, waitVM cfg_tango 5 vm17 3 s = Some (Ok (-1), s').
Proof.
  intros s.
  assert (Href : forall i : nat, outcome (world s) i = -1 \/ outcome (world s) i = 255)
    by (intros i; right; reflexivity).
  assert (Hb : budget_over_from (clock (world s)) (S (clock_reads (world s)))
                 (clock (world s) (clock_reads (world s))) 3 3)
    by (apply (ticking_budget 3 3); lia).
  assert (Hfuel : (3 < 5)%nat) by lia.
  split; [reflexivity|]. split; [exact Href|]. split; [exact Hb|]. split; [exact Hfuel|].
  exact (waitVM_shell_refused cfg_tango vm17 3 s 3 5 eq_refl Href Hb Hfuel).
Defined.

(** The run of that call: one ping, answered; three tries of the remote
    shell, each refused and followed by a sleep; -1 once the budget is
    over. *)
Example waitVM_refused_three_times :
  match waitVM cfg_tango 5 vm17 3
          (new_probe (new_world ["hostA"] ∅ shell_refuses lists_vm17 ticking) host_up) with
  | Some (r, s') =>
      r = Ok (-1) /\
      pinged s' = ["ping -c 1 hostA"] /\
      slept s' = [1%float; 1%float; 1%float] /\
      map fst (issued (world s')) = repeat (ssh_probe_command "ubuntu" "hostA") 3 /\
      Forall2 Qeq (map snd (issued (world s'))) [2%Q; 1%Q; 0%Q] /\
      logged (world s') =
        [(DEBUG, "VM %s: ping completed");
         (DEBUG, "VM %s: ssh returned with %d");
         (DEBUG, "VM %s: ssh returned with %d");
         (DEBUG, "VM %s: ssh returned with %d");
         (INFO, "VM %s: SSH timeout after %d secs")]
  | None => False
  end.
Proof.
  vm_compute. repeat split; try reflexivity; repeat constructor.
Qed.

Lemma waitVM_ready_witness :
  let s := new_probe (new_world ["hostA"] ∅ all_fail lists_vm17 still_clock) host_up in
  ping s (length (pinged s)) = 0 /\
  Qltb 30 (clock (world s) (S (clock_reads (world s))) -
           clock (world s) (clock_reads (world s)))%Q = false /\
  outcome (world s) (length (issued (world s))) <> -1 /\
  outcome (world s) (length (issued (world s))) <> 255 /\
  exists s' : Probe,
    waitVM cfg_tango 1 vm17 30 s = Some (Ok 0, s') /\
    pinged s' = pinged s ++ ["ping -c 1 " +:+ domain_name vm17] /\
    slept s' = slept s /\
    issued (world s') =
      issued (world s) ++
      [(ssh_probe_command (hostUser (self (world s))) (domain_name vm17),
        (30 - (clock (world s) (S (clock_reads (world s))) -
               clock (world s) (clock_reads (world s))))%Q)].
Proof.
  intros s.
  assert (H1 : outcome (world s) (length (issued (world s))) <> -1) by discriminate.
  assert (H255 : outcome (world s) (length (issued (world s))) <> 255) by discriminate.
  split; [reflexivity|]. split; [reflexivity|]. split; [exact H1|]. split; [exact H255|].
  exact (waitVM_ready cfg_tango vm17 30 s 0 eq_refl eq_refl H1 H255).
Defined.

(** [waitVM] on a host that is up and whose remote shell answers with
    status 1: ready. *)
Example waitVM_ready_on_status_1 :
  match waitVM cfg_tango 1 vm17 30
          (new_probe (new_world ["hostA"] ∅ all_fail lists_vm17 still_clock) host_up) with
  | Some (r, s') =>
      r = Ok 0 /\ pinged s' = ["ping -c 1 hostA"] /\ slept s' = [] /\
      issued (world s') =
        [(["ssh"] ++ _SSH_FLAGS ++ ["ubuntu@hostA"; "(:)"], 30 - (0 - 0))%Q]
  | None => False
  end.
Proof. vm_compute. repeat split; reflexivity. Qed.
